(** * vLLM inference with Swallow 13B on Modal: a shallow embedding

    The script [06_gpu_and_ml/vllm_inference_swallow_13B.py] declares a
    container image, downloads model weights into it, loads the model when a
    container starts and runs one batched generation whose results it prints.

    Everything the script delegates (Hugging Face download, the vLLM engine,
    the Modal image builder) is kept abstract: the external functions are the
    fields of a record of oracles, and every statement below is proved for
    all oracles.  What the script itself does (string formatting, the order
    of the calls, the print loop, the token count) is embedded as executable
    definitions over an explicit program state.

    Conventions.
    - A Python [str] is a [string] holding its UTF-8 encoding.  The braces
      that [str.format] looks for are ASCII, and UTF-8 is self-synchronising,
      so scanning and substring on the encoding agree with the code points.
    - A Python [int] is a [Z], a Python [float] is a binary64 [float].
    - [import] statements only bind names and are not modelled. *)

From Stdlib Require Import ZArith Ascii String Floats.PrimFloat.
From stdpp Require Import gmap strings list fin_maps pretty.

Set Warnings "-inexact-float".
Local Open Scope string_scope.
Local Open Scope list_scope.
Local Open Scope Z_scope.

(** ** Python values that cross the boundary to a library *)

(** The line feed, Python's ["\n"]. *)
Definition LF : string := String "010"%char "".

(** Exceptions.  The first four are raised by the interpreter itself for the
    operations this script performs; [Foreign] is whatever the platform or a
    library raises, identified by its description. *)
Inductive exn :=
| KeyError (key : string)
| ValueError (msg : string)
| IndexError (msg : string)
| AttributeError (attr : string)
| Foreign (what : string).

(** The result of running a piece of the script: it returns, it raises, or it
    leaves the fragment of Python that is modelled here. *)
Inductive outcome (A : Type) :=
| Normal (a : A)
| Raise (e : exn)
| Unmodelled.
Arguments Normal {A} a.
Arguments Raise {A} e.
Arguments Unmodelled {A}.

(** What an external function answers. *)
Inductive reply (A : Type) :=
| Returns (a : A)
| Raises (e : exn).
Arguments Returns {A} a.
Arguments Raises {A} e.

(** ** [str.format] with keyword arguments

    The fragment modelled: literal text, the escapes [{{] and [}}], and
    replacement fields [{name}] looked up among the keyword arguments, whose
    values are strings.  Conversions ([!r]), format specifications ([:>10]),
    attribute and index access, and positional or auto-numbered fields are
    outside the fragment. *)

(** The markup of a format string: its literal texts and replacement fields
    in order, ended by the end of the string, by the first syntax error, or
    by the first construct outside the fragment.  CPython scans lazily and
    fills each field before it reads on, so an error only counts once
    everything before it has been rendered. *)
Inductive markup :=
| Done
| Lit (text : string) (rest : markup)
| Field (name : string) (rest : markup)
| Bad (e : exn)
| Outside.

Inductive scan_mode :=
| InText
| InField.

Definition lit (acc : string) (rest : markup) : markup :=
  match acc with
  | "" => rest
  | _ => Lit acc rest
  end.

Definition snoc (acc : string) (c : ascii) : string := acc +:+ String c "".

(** One pass over the format string, as CPython's markup iterator does it:
    in text, a doubled brace is a literal brace and a single opening brace
    starts a field; in a field, the name runs up to the closing brace.
    [acc] is the literal text, or the field name, read so far. *)
Fixpoint scan (m : scan_mode) (acc : string) (s : string) : markup :=
  match m, s with
  | InText, "" => lit acc Done
  | InText, String "{" (String "{" rest) => scan InText (snoc acc "{") rest
  | InText, String "{" "" =>
      lit acc (Bad (ValueError "Single '{' encountered in format string"))
  | InText, String "{" rest => lit acc (scan InField "" rest)
  | InText, String "}" (String "}" rest) => scan InText (snoc acc "}") rest
  | InText, String "}" _ =>
      lit acc (Bad (ValueError "Single '}' encountered in format string"))
  | InText, String c rest => scan InText (snoc acc c) rest
  | InField, "" => Bad (ValueError "expected '}' before end of string")
  | InField, String "{" _ => Bad (ValueError "unexpected '{' in field name")
  | InField, String "}" rest => Field acc (scan InText "" rest)
  | InField, String "[" _ => Outside
  | InField, String ":" _ => Outside
  | InField, String "!" _ => Outside
  | InField, String "." _ => Outside
  | InField, String c rest => scan InField (snoc acc c) rest
  end.

Definition parse_format (fmt : string) : markup := scan InText "" fmt.

Definition is_digit (c : ascii) : bool :=
  let n := nat_of_ascii c in (48 <=? n)%nat && (n <=? 57)%nat.

Fixpoint all_digits (s : string) : bool :=
  match s with
  | "" => true
  | String c rest => is_digit c && all_digits rest
  end.

(** An empty or numeric field name refers to a positional argument. *)
Definition is_keyword_name (name : string) : bool := negb (all_digits name).

Definition prepend (text : string) (o : outcome string) : outcome string :=
  match o with
  | Normal out => Normal (text +:+ out)
  | Raise e => Raise e
  | Unmodelled => Unmodelled
  end.

Fixpoint render (m : markup) (kwargs : gmap string string) : outcome string :=
  match m with
  | Done => Normal ""
  | Lit text rest => prepend text (render rest kwargs)
  | Field name rest =>
      if is_keyword_name name then
        match kwargs !! name with
        | Some v => prepend v (render rest kwargs)
        | None => Raise (KeyError name)
        end
      else Unmodelled
  | Bad e => Raise e
  | Outside => Unmodelled
  end.

(** [fmt.format(k1=v1, ...)] *)
Definition str_format (fmt : string) (kwargs : gmap string string)
  : outcome string :=
  render (parse_format fmt) kwargs.

(** The names of the replacement fields of a format string, in order. *)
Fixpoint field_names (m : markup) : list string :=
  match m with
  | Lit _ rest => field_names rest
  | Field name rest => name :: field_names rest
  | Done | Bad _ | Outside => []
  end.

(** ** The library's data, as the script sees it *)

(** A loaded model: the handle the [LLM] constructor returns. *)
Inductive LLM :=
| LLMHandle (id : N).

(** A Python number written in the script. *)
Inductive number :=
| Int (z : Z)
| Float (f : float).

(** The [SamplingParams] object, by the arguments it is built from. *)
Record SamplingParams := {
  temperature : number;
  top_p : number;
  max_tokens : number;
  presence_penalty : number;
}.

(** vLLM's [CompletionOutput] and [RequestOutput], with the attributes the
    script reads. *)
Record CompletionOutput := {
  text : string;
  token_ids : list Z;
}.

Record RequestOutput := {
  prompt : string;
  outputs : list CompletionOutput;
}.

(** ** Program state *)

(** Python lists are objects: a variable holds a reference, and a callee
    that is handed the reference can change the list.  [loc] names a list
    object of the list heap. *)
Definition loc := positive.

(** A value as it appears in a call: an argument, or what a function of the
    script returns.  A list argument is recorded as its reference together
    with its elements when the call is made. *)
Inductive value :=
| VNone
| VBool (b : bool)
| VNum (n : number)
| VStr (s : string)
| VList (l : loc) (elems : list string)
| VParams (sp : SamplingParams).

(** The external functions the script calls. *)
Inductive callee :=
| os_makedirs
| snapshot_download
| move_cache
| LLM_new
| SamplingParams_new
| LLM_generate (receiver : LLM)
| builtin_print.

(** One call, with its positional and keyword arguments. *)
Record call := Call {
  fn : callee;
  args : list value;
  kwargs : gmap string value;
}.

(** The instance attributes of the [Model] object; an attribute that has not
    been assigned yet is [None]. *)
Record instance := {
  llm : option LLM;
  template : option string;
}.

Record state := {
  MODEL_DIR : string;             (* module global *)
  BASE_MODEL : string;            (* module global *)
  self : instance;                (* the Model object of this container *)
  lists : gmap loc (list string); (* the list objects *)
  stdout : list string;           (* what each print wrote, oldest first *)
  trace : list call;              (* ghost: the calls made, oldest first *)
}.

(** The state after the module's top-level assignments. *)
Definition module_state : state := {|
  MODEL_DIR := "/model";
  BASE_MODEL := "TheBloke/Swallow-13B-Instruct-AWQ";
  self := {| llm := None; template := None |};
  lists := ∅;
  stdout := [];
  trace := [];
|}.

(** The answers of the platform and the libraries.  [ext_generate] also
    gives the elements of the list it was handed as they are when the call
    ends: the library is free to change that list. *)
Record externals := {
  ext_makedirs : string → bool → reply unit;
  ext_snapshot_download : string → string → reply string;
  ext_move_cache : reply unit;
  ext_LLM : string → string → string → reply LLM;
  ext_generate :
    LLM → list string → SamplingParams → reply (list RequestOutput) * list string;
}.

(** ** The monad of the script: state, exceptions, no handler *)

Definition M (A : Type) : Type := state → outcome A * state.

#[global] Instance M_ret : MRet M := λ A a s, (Normal a, s).

#[global] Instance M_bind : MBind M := λ A B k m s,
  match m s with
  | (Normal a, s') => k a s'
  | (Raise e, s') => (Raise e, s')
  | (Unmodelled, s') => (Unmodelled, s')
  end.

Definition raise {A} (e : exn) : M A := λ s, (Raise e, s).

Definition get : M state := λ s, (Normal s, s).

Definition lift {A} (o : outcome A) : M A := λ s, (o, s).

Definition of_reply {A} (r : reply A) : M A :=
  match r with
  | Returns a => mret a
  | Raises e => raise e
  end.

(** Ghost: record a call. *)
Definition log (c : call) : M unit :=
  λ s, (Normal tt,
        {| MODEL_DIR := MODEL_DIR s; BASE_MODEL := BASE_MODEL s;
           self := self s; lists := lists s; stdout := stdout s;
           trace := trace s ++ [c] |}).

Definition write (line : string) : M unit :=
  λ s, (Normal tt,
        {| MODEL_DIR := MODEL_DIR s; BASE_MODEL := BASE_MODEL s;
           self := self s; lists := lists s; stdout := stdout s ++ [line];
           trace := trace s |}).

Definition set_self (i : instance) : M unit :=
  λ s, (Normal tt,
        {| MODEL_DIR := MODEL_DIR s; BASE_MODEL := BASE_MODEL s;
           self := i; lists := lists s; stdout := stdout s;
           trace := trace s |}).

Definition set_lists (h : gmap loc (list string)) : M unit :=
  λ s, (Normal tt,
        {| MODEL_DIR := MODEL_DIR s; BASE_MODEL := BASE_MODEL s;
           self := self s; lists := h; stdout := stdout s;
           trace := trace s |}).

(** A new list object. *)
Definition new_list (elems : list string) : M loc :=
  s ← get;
  let l := fresh (dom (lists s)) in
  set_lists (<[l := elems]> (lists s));;
  mret l.

(** Iterating over [l]: its elements.  The list heap holds the lists of
    strings; a reference outside it is to an object of another kind. *)
Definition read_list (l : loc) : M (list string) :=
  s ← get;
  match lists s !! l with
  | Some elems => mret elems
  | None => lift Unmodelled
  end.

(** [self.llm] and [self.template] *)
Definition self_llm : M LLM :=
  s ← get;
  match llm (self s) with
  | Some h => mret h
  | None => raise (AttributeError "llm")
  end.

Definition self_template : M string :=
  s ← get;
  match template (self s) with
  | Some t => mret t
  | None => raise (AttributeError "template")
  end.

(** [xs[0]] *)
Definition first {A} (xs : list A) : M A :=
  match xs !! 0%nat with
  | Some x => mret x
  | None => raise (IndexError "list index out of range")
  end.

(** [sep.join(parts)] *)
Fixpoint join (sep : string) (parts : list string) : string :=
  match parts with
  | [] => ""
  | [p] => p
  | p :: rest => p +:+ sep +:+ join sep rest
  end.

(** [print(p1, p2, ...)] and [print(p1, p2, ..., sep=sep)]: the separator
    defaults to one space, the end is a line feed. *)
Definition print (parts : list string) (sep : option string) : M value :=
  log (Call builtin_print (VStr <$> parts)
         (match sep with Some t => {["sep" := VStr t]} | None => ∅ end));;
  write (join (default " " sep) parts +:+ LF);;
  mret VNone.

(** A loop over a list with one loop-carried variable. *)
Fixpoint for_each {A B} (body : A → B → M B) (xs : list A) (acc : B) : M B :=
  match xs with
  | [] => mret acc
  | x :: rest => acc' ← body x acc ; for_each body rest acc'
  end.

(** A list comprehension [[f(x) for x in xs]]. *)
Fixpoint comprehension {A B} (f : A → M B) (xs : list A) : M (list B) :=
  match xs with
  | [] => mret []
  | x :: rest => y ← f x ; ys ← comprehension f rest ; mret (y :: ys)
  end.

(** ** The script *)

(** [os.makedirs], [snapshot_download], [move_cache], [LLM(...)]: a call to
    an external function is recorded and answers what the oracle says. *)
Definition external {A} (c : call) (r : reply A) : M A :=
  log c;; of_reply r.

(** Downloads the weights of [BASE_MODEL] into [MODEL_DIR]. *)
Definition download_model_to_folder (ext : externals) : M value :=
  s ← get;
  external (Call os_makedirs [VStr (MODEL_DIR s)] {["exist_ok" := VBool true]})
    (ext_makedirs ext (MODEL_DIR s) true);;
  s ← get;
  external (Call snapshot_download [VStr (BASE_MODEL s)]
              {["local_dir" := VStr (MODEL_DIR s)]})
    (ext_snapshot_download ext (BASE_MODEL s) (MODEL_DIR s));;
  external (Call move_cache [] ∅) (ext_move_cache ext);;
  mret VNone.

(** Modal's image builder: an image is the list of its build steps, and each
    method gives the image with one more step. *)
Module Image.

Inductive layer :=
| FromRegistry (tag : string) (add_python : string)
| PipInstall (packages : list string)
| Env (vars : gmap string string)
| RunFunction (f : externals → M value) (timeout : Z).

Definition t : Type := list layer.

Definition from_registry (tag : string) (add_python : string) : t :=
  [FromRegistry tag add_python].

Definition pip_install (img : t) (packages : list string) : t :=
  img ++ [PipInstall packages].

Definition env (img : t) (vars : gmap string string) : t :=
  img ++ [Env vars].

Definition run_function (img : t) (f : externals → M value) (timeout : Z) : t :=
  img ++ [RunFunction f timeout].

(** The environment variables the steps of an image set; a later step
    overrides an earlier one. *)
Fixpoint environment (img : t) : gmap string string :=
  match img with
  | [] => ∅
  | Env vars :: rest => environment rest ∪ vars
  | _ :: rest => environment rest
  end.

(** The functions an image runs while it is built, with their timeouts in
    seconds. *)
Fixpoint build_functions (img : t) : list ((externals → M value) * Z) :=
  match img with
  | [] => []
  | RunFunction f timeout :: rest => (f, timeout) :: build_functions rest
  | _ :: rest => build_functions rest
  end.

End Image.

Definition image : Image.t :=
  Image.run_function
    (Image.env
       (Image.pip_install
          (Image.from_registry "nvidia/cuda:12.1.0-base-ubuntu22.04" "3.10")
          ["vllm==0.2.6"; "huggingface_hub==0.19.4"; "hf-transfer==0.1.4"])
       {["HF_HUB_ENABLE_HF_TRANSFER" := "1"]})
    download_model_to_folder
    (60 * 20).

Record Stub := {
  stub_name : string;
  stub_image : Image.t;
}.

Definition stub : Stub :=
  {| stub_name := "vllm-inference-swallow-13B"; stub_image := image |}.

(** The text assigned to [self.template]. *)
Definition TEMPLATE : string :=
"以下に、あるタスクを説明する指示があります。リクエストを適切に完了するための回答を記述してください。

### 指示:
{prompt}

### 応答:
".

(** [SamplingParams(temperature=.., top_p=.., max_tokens=.., presence_penalty=..)] *)
Definition new_SamplingParams (temperature top_p max_tokens presence_penalty : number)
  : M SamplingParams :=
  log (Call SamplingParams_new []
         (<["temperature" := VNum temperature]>
            (<["top_p" := VNum top_p]>
               (<["max_tokens" := VNum max_tokens]>
                  {["presence_penalty" := VNum presence_penalty]}))));;
  mret {| temperature := temperature; top_p := top_p;
          max_tokens := max_tokens; presence_penalty := presence_penalty |}.

(** [llm.generate(prompts, sampling_params)]: the library reads the list
    object [prompts], may change it, and returns or raises. *)
Definition call_generate (ext : externals) (h : LLM) (prompts : loc)
    (sampling_params : SamplingParams) : M (list RequestOutput) :=
  elems ← read_list prompts;
  log (Call (LLM_generate h) [VList prompts elems; VParams sampling_params] ∅);;
  s ← get;
  set_lists (<[prompts := (ext_generate ext h elems sampling_params).2]> (lists s));;
  of_reply (ext_generate ext h elems sampling_params).1.

Module Model.

Definition __enter__ (ext : externals) : M value :=
  s ← get;
  h ← external
        (Call LLM_new [VStr (MODEL_DIR s)]
           (<["quantization" := VStr "awq"]> {["dtype" := VStr "auto"]}))
        (ext_LLM ext (MODEL_DIR s) "awq" "auto");
  s ← get;
  set_self {| llm := Some h; template := template (self s) |};;
  s ← get;
  set_self {| llm := llm (self s); template := Some TEMPLATE |};;
  mret VNone.

(** The body of the loop over the results. *)
Definition print_output (output : RequestOutput) (num_tokens : Z) : M Z :=
  o ← first (outputs output);
  let num_tokens := num_tokens + Z.of_nat (length (token_ids o)) in
  o ← first (outputs output);
  print [prompt output; text o; LF +:+ LF] (Some "");;
  mret num_tokens.

(** The element of the comprehension: [self.template.format(prompt=q)]. *)
Definition format_question (q : string) : M string :=
  t ← self_template;
  lift (str_format t {["prompt" := q]}).

Definition generate (ext : externals) (user_questions : loc) : M value :=
  qs ← read_list user_questions;
  formatted ← comprehension format_question qs;
  prompts ← new_list formatted;
  sampling_params ← new_SamplingParams (Float 0.75) (Int 1) (Int 800) (Float 1.15);
  h ← self_llm;
  result ← call_generate ext h prompts sampling_params;
  num_tokens ← for_each print_output result 0;
  print ["Generated " +:+ pretty num_tokens +:+ " tokens"] None;;
  mret VNone.

End Model.

(** The questions of [main]. *)
Definition questions : list string := [
  "Fibonacci数を計算するPython関数を実装してください。";
  "二進数指数関数を行うRust関数を書いてください。";
  "C言語でどのようにメモリを割り当てますか？";
  "JavascriptとPythonの違いは何ですか？";
  "Postgresで無効なインデックスをどのように見つけますか？";
  "PythonでLRU（最近最も使われていない）キャッシュをどのように実装しますか？";
  "マルチスレッドアプリケーションで競合状態を検出し、防止するためにどのようなアプローチを取りますか？";
  "機械学習における決定木アルゴリズムの動作を説明してください。";
  "どのようにして単純なキー値ストアデータベースを一から設計しますか？";
  "並行プログラミングにおけるデッドロック状況をどのように処理しますか？";
  "A*検索アルゴリズムの背後にあるロジックと、それがどこで使用されるかは何ですか？";
  "効率的なオートコンプリートシステムをどのように設計しますか？";
  "Webアプリケーションで安全なセッション管理システムを設計するためのアプローチは何ですか？";
  "ハッシュテーブルで衝突をどのように処理しますか？";
  "分散システム用の負荷分散装置をどのように実装しますか？";
  "キツネとブドウに関する寓話は何ですか？";
  "2083年にオーストラリアの砂漠への旅行について、ジェームズ・ジョイス風の物語を書いてください。美しい砂漠でロボットを見るためです。";
  "ハリーは誰を風船に変えますか？";
  "人類史上で最も重要な出来事を目撃することに決めた時間旅行する歴史家についての物語を書いてください。";
  "秘密エージェントでありながらフルタイムの親でもある人の一日を描写してください。";
  "動物とコミュニケーションをとることができる探偵についての物語を作成してください。";
  "雲の上に浮かぶ都市に住むことについて最も珍しいことは何ですか？";
  "夢が共有される世界で、平和な夢に悪夢が侵入したらどうなりますか？";
  "平行宇宙に通じる地図を見つけた友人たちの一生に一度の冒険を描写してください。";
  "自分の音楽に魔法の力があることを発見したミュージシャンについての物語を語ってください。";
  "人々が逆に歳を取る世界で、5歳の男性の人生を描写してください。";
  "毎晩絵が生き生きとする画家についての物語を作成してください。";
  "詩人の詩が未来の出来事を予言し始めたらどうなりますか？";
  "本が話すことができる世界を想像してください。図書館員はどのように対処しますか？";
  "植物によって住まわれた惑星を発見した宇宙飛行士についての物語を語ってください。";
  "これまでで最も洗練された郵便サービスを通じて旅する手紙の旅を描写してください。";
  "食べる人の過去からの思い出を呼び起こすことができるシェフについての物語を書いてください。";
  "ローマ帝国の衰退に大きく貢献した要因は何でしたか？";
  "印刷プレスの発明がヨーロッパ社会に革命をもたらした方法は？";
  "量的緩和の影響は何ですか？";
  "古代世界における経済思想にギリシャ哲学者はどのような影響を与えましたか？";
  "ソビエト連邦の崩壊につながった経済的・哲学的な要因は何でしたか？";
  "20世紀の非植民地化は地政学的な地図をどのように変えましたか？";
  "クメール帝国は東南アジアの歴史と文化にどのような影響を与えましたか？";
  "技術の歩、環境の変化、社会の変化を考慮して、未来の都市を描写してください。";
  "水が最も価値のある商品となるディストピア的な未来では、社会はどのように機能しますか？";
  "科学者が不老不死を発見した場合、社会、経済、環境にどのような影響を与える可能性がありますか？";
  "高度な宇宙文明との接触がもたらす可能性のある影響は何ですか？";
  "9と8の積は何ですか？";
  "列車が2時間で120キロメートルを走行した場合、その平均速度は何ですか？";
  "このステップを一歩一歩考えてください。数列a_nがa_1 = 3、a_2 = 5、そしてn > 2に対してa_n = a_(n-1) + a_(n-2)と定義される場合、a_6を求めてください。";
  "このステップを一歩一歩考えてください。初項3、最終項35、総項数11の算術級数の合計を計算してください。";
  "このステップを一歩一歩考えてください。点(1,2)、(3,-4)、(-2,5)における三角形の面積はいくつですか？";
  "このステップを一歩一歩考えてください。次の線形方程式系を解いてください：3x + 2y = 14, 5x - y = 15。";
  "エンペラー・ノートンIは誰であり、サンフランシスコの歴史における彼の重要性は何ですか？";
  "ヴォイニッチ手稿とは何であり、なぜ何世紀にもわたって学者を困惑させてきたのですか？";
  "プロジェクトA119とは何であり、その目的は何でしたか？";
  "ディアトロフ峠事件とは何であり、なぜそれは謎のままですか？";
  "1930年代のオーストラリアで起こった「エミュー戦争」とは何ですか？";
  "ヘリベルト・イリッヒによって提案された「ファントム・タイム・ハイポセシス」とは何ですか？";
  "12世紀のイングランド伝説による「ウールピットの緑の子供たち」とは誰ですか？";
  "天文学における「ゾンビ星」とは何ですか？";
  "中世キリスト教伝統の「犬頭聖者」と「ライオン顔の聖者」とは誰ですか？";
  "岸辺に打ち上げられた未確認の有機質塊である「グロブスターズ」の物語とは何ですか？"
].

(** [main] builds the question list and calls [generate] remotely: Modal
    starts a container, enters the [Model] object there, and runs the method
    on the list. *)
Definition main (ext : externals) : M value :=
  qs ← new_list questions;
  Model.__enter__ ext;;
  Model.generate ext qs.
(** ** Vocabulary of the statements *)

(** The template around its replacement field. *)
Definition TEMPLATE_head : string :=
"以下に、あるタスクを説明する指示があります。リクエストを適切に完了するための回答を記述してください。

### 指示:
".

Definition TEMPLATE_tail : string :=
"

### 応答:
".

(** The prompt made from one question. *)
Definition prompt_of (q : string) : string :=
  TEMPLATE_head +:+ q +:+ TEMPLATE_tail.

(** [q] occurs in [s]. *)
Definition Substring (q s : string) : Prop :=
  ∃ before after, s = before +:+ q +:+ after.

(** The sampling parameters [generate] builds, and the call that builds
    them. *)
Definition sampling_params : SamplingParams :=
  {| temperature := Float 0.75; top_p := Int 1;
     max_tokens := Int 800; presence_penalty := Float 1.15 |}.

Definition sampling_params_call : call :=
  Call SamplingParams_new []
    (<["temperature" := VNum (Float 0.75)]>
       (<["top_p" := VNum (Int 1)]>
          (<["max_tokens" := VNum (Int 800)]>
             {["presence_penalty" := VNum (Float 1.15)]}))).

(** The call of the library's batch generation. *)
Definition generate_call (h : LLM) (l : loc) (prompts : list string) : call :=
  Call (LLM_generate h) [VList l prompts; VParams sampling_params] ∅.

Definition is_generate_call (c : call) : bool :=
  match fn c with
  | LLM_generate _ => true
  | _ => false
  end.

(** A result the loop can print has a first completion. *)
Definition has_completion (output : RequestOutput) : Prop :=
  outputs output ≠ [].

#[global] Instance has_completion_dec output : Decision (has_completion output).
Proof. unfold has_completion. apply _. Defined.

(** The text and the number of tokens of the first completion. *)
Definition generated_text (output : RequestOutput) : string :=
  match outputs output with
  | c :: _ => text c
  | [] => ""
  end.

Definition generated_tokens (output : RequestOutput) : Z :=
  match outputs output with
  | c :: _ => Z.of_nat (length (token_ids c))
  | [] => 0
  end.

(** What the loop prints for one result, and the call that prints it. *)
Definition printed_line (output : RequestOutput) : string :=
  prompt output +:+ generated_text output +:+ LF +:+ LF +:+ LF.

Definition print_call (output : RequestOutput) : call :=
  Call builtin_print
    [VStr (prompt output); VStr (generated_text output); VStr (LF +:+ LF)]
    {["sep" := VStr ""]}.

Definition token_total (result : list RequestOutput) : Z :=
  foldr (λ output n, generated_tokens output + n) 0 result.

(** The last line, and the call that prints it. *)
Definition total_text (n : Z) : string :=
  "Generated " +:+ pretty n +:+ " tokens".

Definition total_call (n : Z) : call :=
  Call builtin_print [VStr (total_text n)] ∅.

(** What [generate] does with the results once the library has returned
    them. *)
Definition report (result : list RequestOutput) : M value :=
  num_tokens ← for_each Model.print_output result 0;
  print ["Generated " +:+ pretty num_tokens +:+ " tokens"] None;;
  mret VNone.

(** The state with more output: lines printed and calls recorded. *)
Definition emit (lines : list string) (calls : list call) (s : state) : state :=
  {| MODEL_DIR := MODEL_DIR s; BASE_MODEL := BASE_MODEL s;
     self := self s; lists := lists s;
     stdout := stdout s ++ lines; trace := trace s ++ calls |}.

Definition with_lists (h : gmap loc (list string)) (s : state) : state :=
  {| MODEL_DIR := MODEL_DIR s; BASE_MODEL := BASE_MODEL s;
     self := self s; lists := h; stdout := stdout s; trace := trace s |}.

Definition with_self (i : instance) (s : state) : state :=
  {| MODEL_DIR := MODEL_DIR s; BASE_MODEL := BASE_MODEL s;
     self := i; lists := lists s; stdout := stdout s; trace := trace s |}.

(** The calls of the two other operations. *)
Definition makedirs_call (s : state) : call :=
  Call os_makedirs [VStr (MODEL_DIR s)] {["exist_ok" := VBool true]}.

Definition snapshot_download_call (s : state) : call :=
  Call snapshot_download [VStr (BASE_MODEL s)] {["local_dir" := VStr (MODEL_DIR s)]}.

Definition move_cache_call : call := Call move_cache [] ∅.

Definition LLM_call (s : state) : call :=
  Call LLM_new [VStr (MODEL_DIR s)]
    (<["quantization" := VStr "awq"]> {["dtype" := VStr "auto"]}).

(** ** Libraries to run the script against *)

(** A library that answers every prompt with one fixed completion of three
    tokens and leaves the prompt list alone. *)
Definition echo_output (p : string) : RequestOutput :=
  {| prompt := p; outputs := [{| text := "ok"; token_ids := [1; 2; 3] |}] |}.

Definition echo_library : externals := {|
  ext_makedirs := λ _ _, Returns tt;
  ext_snapshot_download := λ _ local_dir, Returns local_dir;
  ext_move_cache := Returns tt;
  ext_LLM := λ _ _ _, Returns (LLMHandle 1);
  ext_generate := λ _ prompts _, (Returns (echo_output <$> prompts), prompts);
|}.

(** A library whose every result lacks completions, and that empties the
    prompt list it is handed. *)
Definition hollow_output (p : string) : RequestOutput :=
  {| prompt := p; outputs := [] |}.

Definition hollow_library : externals := {|
  ext_makedirs := λ _ _, Returns tt;
  ext_snapshot_download := λ _ local_dir, Returns local_dir;
  ext_move_cache := Returns tt;
  ext_LLM := λ _ _ _, Returns (LLMHandle 1);
  ext_generate := λ _ prompts _, (Returns (hollow_output <$> prompts), []);
|}.

(** A platform on which everything raises. *)
Definition failing_library : externals := {|
  ext_makedirs := λ _ _, Raises (Foreign "PermissionError");
  ext_snapshot_download := λ _ _, Raises (Foreign "HTTPError");
  ext_move_cache := Raises (Foreign "OSError");
  ext_LLM := λ _ _ _, Raises (Foreign "OutOfMemoryError");
  ext_generate := λ _ prompts _, (Raises (Foreign "RuntimeError"), prompts);
|}.

(** A container that has entered its [Model] object and holds the list
    [["Q1"; "{Q2}"]] at reference 1. *)
Definition ready_state : state :=
  with_lists {[1%positive := ["Q1"; "{Q2}"]]}
    (with_self {| llm := Some (LLMHandle 1); template := Some TEMPLATE |}
       module_state).

(** ** Vocabulary of the further properties *)

(** A result cut down to its first completion. *)
Definition first_only (output : RequestOutput) : RequestOutput :=
  {| prompt := prompt output; outputs := take 1 (outputs output) |}.

(** The library [ext], with every result it returns cut down to its first
    completion. *)
Definition truncating (ext : externals) : externals := {|
  ext_makedirs := ext_makedirs ext;
  ext_snapshot_download := ext_snapshot_download ext;
  ext_move_cache := ext_move_cache ext;
  ext_LLM := ext_LLM ext;
  ext_generate := λ h prompts sp,
    (match (ext_generate ext h prompts sp).1 with
     | Returns result => Returns (first_only <$> result)
     | Raises e => Raises e
     end,
     (ext_generate ext h prompts sp).2);
|}.

(** A call that [generate] may make: building the sampling parameters,
    the library's [generate], or [print]. *)
Definition is_generate_step (c : call) : bool :=
  match fn c with
  | SamplingParams_new | LLM_generate _ | builtin_print => true
  | os_makedirs | snapshot_download | move_cache | LLM_new => false
  end.

(** A library that returns two completions for every prompt. *)
Definition verbose_output (p : string) : RequestOutput :=
  {| prompt := p;
     outputs := [{| text := "first"; token_ids := [1; 2] |};
                 {| text := "second"; token_ids := [3; 4; 5] |}] |}.

Definition verbose_library : externals := {|
  ext_makedirs := λ _ _, Returns tt;
  ext_snapshot_download := λ _ local_dir, Returns local_dir;
  ext_move_cache := Returns tt;
  ext_LLM := λ _ _ _, Returns (LLMHandle 1);
  ext_generate := λ _ prompts _, (Returns (verbose_output <$> prompts), prompts);
|}.

(** A container that has not entered its [Model] object, holding the list
    [["Q1"]] at reference 1 and the empty list at reference 2. *)
Definition unentered_state : state :=
  with_lists (<[1%positive := ["Q1"]]> {[2%positive := []]}) module_state.

(** * Properties *)

(** ** [str.format] on small format strings *)

Example scan_two_fields :
  parse_format "a{x}b{{c}}{y}"
  = Lit "a" (Field "x" (Lit "b{c}" (Field "y" Done))).
Proof. reflexivity. Qed.

Example format_two_fields :
  str_format "a{x}b{{c}}{y}" (<["x" := "1"]> {["y" := "{z}"]}) = Normal "a1b{c}{z}".
Proof. vm_compute. reflexivity. Qed.

Example format_missing_key_first :
  str_format "a{x}}" ∅ = Raise (KeyError "x").
Proof. vm_compute. reflexivity. Qed.

Example format_single_brace :
  str_format "a}" ∅ = Raise (ValueError "Single '}' encountered in format string").
Proof. reflexivity. Qed.

(** ** Strings *)

Lemma append_nil_r (s : string) : s +:+ "" = s.
Proof. induction s as [|c s IH]; [reflexivity|].
  change (String c (s +:+ "") = String c s). by rewrite IH.
Qed.

Lemma append_assoc (a b c : string) : (a +:+ b) +:+ c = a +:+ b +:+ c.
Proof. induction a as [|x a IH]; [reflexivity|].
  change (String x ((a +:+ b) +:+ c) = String x (a +:+ b +:+ c)). by rewrite IH.
Qed.

(** ** The template *)

Lemma TEMPLATE_split : TEMPLATE = TEMPLATE_head +:+ "{prompt}" +:+ TEMPLATE_tail.
Proof. reflexivity. Qed.

Lemma parse_TEMPLATE :
  parse_format TEMPLATE = Lit TEMPLATE_head (Field "prompt" (Lit TEMPLATE_tail Done)).
Proof. vm_compute. reflexivity. Qed.

Lemma format_TEMPLATE (kw : gmap string string) :
  str_format TEMPLATE kw =
  match kw !! "prompt" with
  | Some v => Normal (TEMPLATE_head +:+ v +:+ TEMPLATE_tail)
  | None => Raise (KeyError "prompt")
  end.
Proof.
  unfold str_format. rewrite parse_TEMPLATE.
  cbn [render]. change (is_keyword_name "prompt") with true. cbv iota.
  destruct (kw !! "prompt") as [v|]; [|reflexivity].
  cbn [render prepend]. by rewrite append_nil_r.
Qed.

Lemma format_prompt (q : string) :
  str_format TEMPLATE {["prompt" := q]} = Normal (prompt_of q).
Proof. rewrite format_TEMPLATE. by rewrite lookup_singleton_eq. Qed.

(** ** Running the monad *)

Lemma bind_run {A B} (m : M A) (k : A → M B) (s : state) :
  (m ≫= k) s =
  match m s with
  | (Normal a, s') => k a s'
  | (Raise e, s') => (Raise e, s')
  | (Unmodelled, s') => (Unmodelled, s')
  end.
Proof. reflexivity. Qed.

Lemma bind_raise {A B} (e : exn) (k : A → M B) : raise e ≫= k = raise e.
Proof. reflexivity. Qed.

Lemma emit_emit l1 c1 l2 c2 s :
  emit l2 c2 (emit l1 c1 s) = emit (l1 ++ l2) (c1 ++ c2) s.
Proof. unfold emit. cbn. by rewrite !(assoc_L (++)). Qed.

Lemma emit_nil s : emit [] [] s = s.
Proof. destruct s. unfold emit. cbn. by rewrite !app_nil_r. Qed.

Lemma with_lists_emit h l c s :
  with_lists h (emit l c s) = emit l c (with_lists h s).
Proof. reflexivity. Qed.

Lemma with_lists_with_lists h1 h2 s :
  with_lists h2 (with_lists h1 s) = with_lists h2 s.
Proof. reflexivity. Qed.

(** ** The comprehension *)

Lemma format_question_state (q : string) (s : state) :
  (Model.format_question q s).2 = s.
Proof.
  unfold Model.format_question, self_template, get, lift, raise.
  rewrite !bind_run. cbn [fst snd].
  destruct (template (self s)); reflexivity.
Qed.

Lemma comprehension_state (qs : list string) (s : state) :
  (comprehension Model.format_question qs s).2 = s.
Proof.
  induction qs as [|q qs IH]; [reflexivity|].
  cbn [comprehension]. rewrite bind_run.
  pose proof (format_question_state q s) as Hq.
  destruct (Model.format_question q s) as [[y| |] s1]; cbn [snd] in Hq; subst s1;
    [|reflexivity..].
  rewrite bind_run.
  destruct (comprehension Model.format_question qs s) as [[ys| |] s2];
    cbn [snd] in IH; subst s2; reflexivity.
Qed.

Lemma format_question_prompt (q : string) (s : state) :
  template (self s) = Some TEMPLATE →
  Model.format_question q s = (Normal (prompt_of q), s).
Proof.
  intros Ht. unfold Model.format_question, self_template, get, lift.
  rewrite !bind_run. cbn [fst snd]. rewrite Ht.
  change ((mret TEMPLATE : M string) s) with (Normal TEMPLATE, s). cbv iota beta.
  by rewrite format_prompt.
Qed.

Lemma comprehension_prompts (qs : list string) (s : state) :
  template (self s) = Some TEMPLATE →
  comprehension Model.format_question qs s = (Normal (prompt_of <$> qs), s).
Proof.
  intros Ht. induction qs as [|q qs IH]; [reflexivity|].
  cbn [comprehension]. rewrite bind_run, (format_question_prompt q s Ht).
  cbv iota beta. rewrite bind_run, IH. reflexivity.
Qed.

(** ** The print loop *)

Lemma print_run (parts : list string) (sep : option string) (s : state) :
  print parts sep s =
  (Normal VNone,
   emit [join (default " " sep) parts +:+ LF]
     [Call builtin_print (VStr <$> parts)
        (match sep with Some t => {["sep" := VStr t]} | None => ∅ end)] s).
Proof.
  unfold print, log, write, emit. rewrite !bind_run.
  cbn [MODEL_DIR BASE_MODEL self lists stdout trace].
  reflexivity.
Qed.

Lemma join_three (a b c d : string) :
  join "" [a; b; c] +:+ d = a +:+ b +:+ c +:+ d.
Proof.
  cbn [join]. change ("" +:+ c) with c. change ("" +:+ b +:+ c) with (b +:+ c).
  by rewrite !append_assoc.
Qed.

Lemma print_output_ok (output : RequestOutput) (acc : Z) (s : state) :
  has_completion output →
  Model.print_output output acc s =
  (Normal (acc + generated_tokens output),
   emit [printed_line output] [print_call output] s).
Proof.
  unfold has_completion, Model.print_output, generated_tokens, printed_line,
    print_call, generated_text, first.
  destruct (outputs output) as [|c cs]; [done|]. intros _.
  cbn [lookup list_lookup]. rewrite !bind_run.
  change ((mret c : M CompletionOutput) s) with (Normal c, s). cbv iota beta.
  rewrite bind_run. change ((mret c : M CompletionOutput) s) with (Normal c, s).
  cbv iota beta. rewrite bind_run, print_run. cbn [default].
  rewrite join_three. reflexivity.
Qed.

Lemma print_output_empty (output : RequestOutput) (acc : Z) (s : state) :
  outputs output = [] →
  Model.print_output output acc s =
  (Raise (IndexError "list index out of range"), s).
Proof.
  intros He. unfold Model.print_output, first. rewrite He. reflexivity.
Qed.

Lemma token_total_cons output result :
  token_total (output :: result) = generated_tokens output + token_total result.
Proof. reflexivity. Qed.

Lemma loop_ok (result : list RequestOutput) (acc : Z) (s : state) :
  Forall has_completion result →
  for_each Model.print_output result acc s =
  (Normal (acc + token_total result),
   emit (printed_line <$> result) (print_call <$> result) s).
Proof.
  intros Hall. revert acc s.
  induction Hall as [|output result Ho _ IH]; intros acc s.
  - cbn [for_each fmap list_fmap token_total foldr].
    rewrite emit_nil, Z.add_0_r. reflexivity.
  - cbn [for_each]. rewrite bind_run, (print_output_ok _ _ _ Ho). cbv iota beta.
    rewrite IH, emit_emit, token_total_cons, Z.add_assoc. reflexivity.
Qed.

Lemma loop_stops (good rest : list RequestOutput) (bad : RequestOutput)
    (acc : Z) (s : state) :
  Forall has_completion good →
  outputs bad = [] →
  for_each Model.print_output (good ++ bad :: rest) acc s =
  (Raise (IndexError "list index out of range"),
   emit (printed_line <$> good) (print_call <$> good) s).
Proof.
  intros Hall Hbad. revert acc s.
  induction Hall as [|output good Ho _ IH]; intros acc s.
  - cbn [app for_each fmap list_fmap]. rewrite bind_run, (print_output_empty _ _ _ Hbad).
    by rewrite emit_nil.
  - cbn [app for_each]. rewrite bind_run, (print_output_ok _ _ _ Ho). cbv iota beta.
    rewrite IH, emit_emit. reflexivity.
Qed.

Lemma results_split (result : list RequestOutput) :
  Forall has_completion result ∨
  ∃ good bad rest,
    result = good ++ bad :: rest ∧ Forall has_completion good ∧ outputs bad = [].
Proof.
  induction result as [|output result IH]; [by left|].
  destruct (decide (has_completion output)) as [Ho|Ho].
  - destruct IH as [IH|(good & bad & rest & -> & Hg & Hb)].
    + left. by constructor.
    + right. exists (output :: good), bad, rest. split_and!; [done| by constructor|done].
  - right. exists [], output, result. split_and!; [done|constructor|].
    unfold has_completion in Ho. by destruct (outputs output); [|destruct Ho].
Qed.

(** ** [generate] *)

Lemma read_list_run (l : loc) (s : state) :
  read_list l s =
  match lists s !! l with
  | Some elems => (Normal elems, s)
  | None => (Unmodelled, s)
  end.
Proof. unfold read_list, get. rewrite bind_run. by destruct (lists s !! l). Qed.

Lemma new_list_run (elems : list string) (s : state) :
  new_list elems s =
  (Normal (fresh (dom (lists s))),
   with_lists (<[fresh (dom (lists s)) := elems]> (lists s)) s).
Proof. reflexivity. Qed.

Lemma new_SamplingParams_run (s : state) :
  new_SamplingParams (Float 0.75) (Int 1) (Int 800) (Float 1.15) s =
  (Normal sampling_params, emit [] [sampling_params_call] s).
Proof.
  unfold new_SamplingParams, log, emit. rewrite bind_run.
  cbn [MODEL_DIR BASE_MODEL self lists stdout trace]. rewrite app_nil_r.
  reflexivity.
Qed.

Lemma self_llm_run (s : state) :
  self_llm s =
  match llm (self s) with
  | Some h => (Normal h, s)
  | None => (Raise (AttributeError "llm"), s)
  end.
Proof. unfold self_llm, get. rewrite bind_run. by destruct (llm (self s)). Qed.

Lemma call_generate_run (ext : externals) (h : LLM) (p : loc)
    (elems : list string) (sp : SamplingParams) (s : state) :
  lists s !! p = Some elems →
  call_generate ext h p sp s =
  of_reply (ext_generate ext h elems sp).1
    (emit [] [Call (LLM_generate h) [VList p elems; VParams sp] ∅]
       (with_lists (<[p := (ext_generate ext h elems sp).2]> (lists s)) s)).
Proof.
  intros Hp. unfold call_generate. rewrite bind_run, read_list_run, Hp.
  unfold log, get, set_lists. rewrite !bind_run.
  cbn [MODEL_DIR BASE_MODEL self lists stdout trace].
  unfold emit, with_lists. cbn [MODEL_DIR BASE_MODEL self lists stdout trace].
  rewrite app_nil_r. reflexivity.
Qed.

Lemma generate_prefix (ext : externals) (uq : loc) (s : state)
    (qs : list string) (h : LLM) :
  lists s !! uq = Some qs →
  template (self s) = Some TEMPLATE →
  llm (self s) = Some h →
  let p := fresh (dom (lists s)) in
  let answer := ext_generate ext h (prompt_of <$> qs) sampling_params in
  Model.generate ext uq s =
  (of_reply answer.1 ≫= report)
    (emit [] [sampling_params_call; generate_call h p (prompt_of <$> qs)]
       (with_lists (<[p := answer.2]> (lists s)) s)).
Proof.
  intros Hq Ht Hh p answer. unfold Model.generate.
  rewrite bind_run, read_list_run, Hq.
  rewrite bind_run, (comprehension_prompts qs s Ht).
  rewrite bind_run, new_list_run. fold p.
  rewrite bind_run, new_SamplingParams_run.
  rewrite bind_run, self_llm_run.
  cbn [emit with_lists MODEL_DIR BASE_MODEL self lists stdout trace]. rewrite Hh.
  rewrite bind_run.
  rewrite (call_generate_run ext h p (prompt_of <$> qs)); [|apply lookup_insert_eq].
  cbn [emit with_lists MODEL_DIR BASE_MODEL self lists stdout trace].
  rewrite insert_insert_eq, with_lists_emit, with_lists_with_lists, emit_emit.
  reflexivity.
Qed.

Lemma report_ok (result : list RequestOutput) (s : state) :
  Forall has_completion result →
  report result s =
  (Normal VNone,
   emit ((printed_line <$> result) ++ [total_text (token_total result) +:+ LF])
     ((print_call <$> result) ++ [total_call (token_total result)]) s).
Proof.
  intros Hall. unfold report. rewrite bind_run, (loop_ok _ _ _ Hall).
  cbv iota beta. rewrite bind_run, print_run, emit_emit, Z.add_0_l.
  reflexivity.
Qed.

Lemma report_stops (good rest : list RequestOutput) (bad : RequestOutput)
    (s : state) :
  Forall has_completion good →
  outputs bad = [] →
  report (good ++ bad :: rest) s =
  (Raise (IndexError "list index out of range"),
   emit (printed_line <$> good) (print_call <$> good) s).
Proof.
  intros Hall Hbad. unfold report.
  by rewrite bind_run, (loop_stops _ _ _ _ _ Hall Hbad).
Qed.

(** Whatever the results, [report] only adds output, and returns [None] when
    it returns. *)
Lemma report_cases (result : list RequestOutput) (s : state) :
  ∃ o lines calls,
    report result s = (o, emit lines calls s) ∧ ∀ v, o = Normal v → v = VNone.
Proof.
  destruct (results_split result) as [Hall|(good & bad & rest & -> & Hg & Hb)].
  - eexists _, _, _. split; [apply (report_ok _ _ Hall)|]. by intros v [= <-].
  - eexists _, _, _. split; [apply (report_stops _ _ _ _ Hg Hb)|]. by intros v [=].
Qed.

Lemma generate_ok (ext : externals) (uq : loc) (s : state)
    (qs : list string) (h : LLM) (result : list RequestOutput) :
  lists s !! uq = Some qs →
  template (self s) = Some TEMPLATE →
  llm (self s) = Some h →
  let p := fresh (dom (lists s)) in
  let answer := ext_generate ext h (prompt_of <$> qs) sampling_params in
  answer.1 = Returns result →
  Forall has_completion result →
  Model.generate ext uq s =
  (Normal VNone,
   emit ((printed_line <$> result) ++ [total_text (token_total result) +:+ LF])
     ([sampling_params_call; generate_call h p (prompt_of <$> qs)]
      ++ (print_call <$> result) ++ [total_call (token_total result)])
     (with_lists (<[p := answer.2]> (lists s)) s)).
Proof.
  intros Hq Ht Hh p answer Hr Hall.
  rewrite (generate_prefix ext uq s qs h Hq Ht Hh). fold p answer.
  rewrite bind_run, Hr. cbn [of_reply].
  change ((mret result : M (list RequestOutput)) ?s0) with (Normal result, s0).
  cbv iota beta. rewrite (report_ok _ _ Hall), emit_emit. reflexivity.
Qed.

Lemma generate_raises (ext : externals) (uq : loc) (s : state)
    (qs : list string) (h : LLM) (e : exn) :
  lists s !! uq = Some qs →
  template (self s) = Some TEMPLATE →
  llm (self s) = Some h →
  let p := fresh (dom (lists s)) in
  let answer := ext_generate ext h (prompt_of <$> qs) sampling_params in
  answer.1 = Raises e →
  Model.generate ext uq s =
  (Raise e,
   emit [] [sampling_params_call; generate_call h p (prompt_of <$> qs)]
     (with_lists (<[p := answer.2]> (lists s)) s)).
Proof.
  intros Hq Ht Hh p answer Hr.
  rewrite (generate_prefix ext uq s qs h Hq Ht Hh). fold p answer.
  rewrite bind_run, Hr. reflexivity.
Qed.

Lemma generate_malformed (ext : externals) (uq : loc) (s : state)
    (qs : list string) (h : LLM) (good rest : list RequestOutput)
    (bad : RequestOutput) :
  lists s !! uq = Some qs →
  template (self s) = Some TEMPLATE →
  llm (self s) = Some h →
  let p := fresh (dom (lists s)) in
  let answer := ext_generate ext h (prompt_of <$> qs) sampling_params in
  answer.1 = Returns (good ++ bad :: rest) →
  Forall has_completion good →
  outputs bad = [] →
  Model.generate ext uq s =
  (Raise (IndexError "list index out of range"),
   emit (printed_line <$> good)
     ([sampling_params_call; generate_call h p (prompt_of <$> qs)]
      ++ (print_call <$> good))
     (with_lists (<[p := answer.2]> (lists s)) s)).
Proof.
  intros Hq Ht Hh p answer Hr Hg Hb.
  rewrite (generate_prefix ext uq s qs h Hq Ht Hh). fold p answer.
  rewrite bind_run, Hr. cbn [of_reply].
  change ((mret (good ++ bad :: rest) : M (list RequestOutput)) ?s0)
    with (Normal (good ++ bad :: rest), s0).
  cbv iota beta. rewrite (report_stops _ _ _ _ Hg Hb), emit_emit. reflexivity.
Qed.

Lemma with_lists_id (s : state) : with_lists (lists s) s = s.
Proof. by destruct s. Qed.

(** On every state and for every library, [generate] leaves the globals and
    the [Model] object alone, keeps every list that existed before the call
    as it was, and returns [None] when it returns. *)
Lemma generate_cases (ext : externals) (uq : loc) (s : state) :
  ∃ o lines calls (h : gmap loc (list string)),
    Model.generate ext uq s = (o, emit lines calls (with_lists h s))
    ∧ (∀ l, is_Some (lists s !! l) → h !! l = lists s !! l)
    ∧ (∀ v, o = Normal v → v = VNone).
Proof.
  unfold Model.generate. rewrite bind_run, read_list_run.
  destruct (lists s !! uq) as [qs|] eqn:Hq; cycle 1.
  { exists Unmodelled, [], [], (lists s).
    by rewrite emit_nil, with_lists_id. }
  rewrite bind_run. pose proof (comprehension_state qs s) as Hc.
  destruct (comprehension Model.format_question qs s) as [[formatted|e|] s1];
    cbn [snd] in Hc; subst s1.
  2:{ exists (Raise e), [], [], (lists s). by rewrite emit_nil, with_lists_id. }
  2:{ exists Unmodelled, [], [], (lists s). by rewrite emit_nil, with_lists_id. }
  rewrite bind_run, new_list_run. set (p := fresh (dom (lists s))).
  assert (Hfresh : lists s !! p = None).
  { apply not_elem_of_dom. apply is_fresh. }
  assert (Hkeep : ∀ elems l,
             is_Some (lists s !! l) → <[p := elems]> (lists s) !! l = lists s !! l).
  { intros elems l [x Hl]. rewrite lookup_insert_ne; [done|]. congruence. }
  rewrite bind_run, new_SamplingParams_run.
  rewrite bind_run, self_llm_run.
  cbn [emit with_lists MODEL_DIR BASE_MODEL self lists stdout trace].
  destruct (llm (self s)) as [h|].
  2:{ eexists (Raise _), [], [sampling_params_call], _.
      split; [reflexivity|]. split; [apply Hkeep|done]. }
  rewrite bind_run.
  rewrite (call_generate_run ext h p formatted); [|apply lookup_insert_eq].
  cbn [emit with_lists MODEL_DIR BASE_MODEL self lists stdout trace].
  rewrite insert_insert_eq, with_lists_emit, with_lists_with_lists, emit_emit.
  destruct (ext_generate ext h formatted sampling_params) as [[result|e] elems'];
    cbn [fst snd of_reply].
  2:{ eexists (Raise e), _, _, _. split; [reflexivity|]. split; [apply Hkeep|done]. }
  change ((mret result : M (list RequestOutput)) ?s0) with (Normal result, s0).
  cbv iota beta.
  match goal with |- context [emit ?l ?c ?s0] =>
    destruct (report_cases result (emit l c s0)) as (o & lines & calls & Hr & Hv)
  end.
  unfold report in Hr. rewrite Hr, emit_emit.
  eexists o, _, _, _. split; [reflexivity|]. split; [apply Hkeep|done].
Qed.

(** ** [download_model_to_folder] and [__enter__] *)

Lemma external_run {A} (c : call) (r : reply A) (s : state) :
  external c r s =
  match r with
  | Returns a => (Normal a, emit [] [c] s)
  | Raises e => (Raise e, emit [] [c] s)
  end.
Proof.
  unfold external, log, emit. rewrite bind_run.
  cbn [MODEL_DIR BASE_MODEL self lists stdout trace]. rewrite app_nil_r.
  by destruct r.
Qed.

Lemma MODEL_DIR_emit l c s : MODEL_DIR (emit l c s) = MODEL_DIR s.
Proof. reflexivity. Qed.

Lemma BASE_MODEL_emit l c s : BASE_MODEL (emit l c s) = BASE_MODEL s.
Proof. reflexivity. Qed.

Lemma download_run (ext : externals) (s : state) :
  download_model_to_folder ext s =
  match ext_makedirs ext (MODEL_DIR s) true with
  | Raises e => (Raise e, emit [] [makedirs_call s] s)
  | Returns _ =>
      match ext_snapshot_download ext (BASE_MODEL s) (MODEL_DIR s) with
      | Raises e =>
          (Raise e, emit [] [makedirs_call s; snapshot_download_call s] s)
      | Returns _ =>
          match ext_move_cache ext with
          | Raises e =>
              (Raise e,
               emit [] [makedirs_call s; snapshot_download_call s; move_cache_call] s)
          | Returns _ =>
              (Normal VNone,
               emit [] [makedirs_call s; snapshot_download_call s; move_cache_call] s)
          end
      end
  end.
Proof.
  unfold download_model_to_folder, get. rewrite !bind_run, external_run.
  destruct (ext_makedirs ext (MODEL_DIR s) true) as [[]|e]; [|reflexivity].
  rewrite !bind_run, external_run, MODEL_DIR_emit, BASE_MODEL_emit, emit_emit.
  destruct (ext_snapshot_download ext (BASE_MODEL s) (MODEL_DIR s)) as [d|e];
    [|reflexivity].
  rewrite bind_run, external_run, emit_emit.
  destruct (ext_move_cache ext) as [[]|e]; reflexivity.
Qed.

Lemma enter_run (ext : externals) (s : state) :
  Model.__enter__ ext s =
  match ext_LLM ext (MODEL_DIR s) "awq" "auto" with
  | Raises e => (Raise e, emit [] [LLM_call s] s)
  | Returns h =>
      (Normal VNone,
       emit [] [LLM_call s]
         (with_self {| llm := Some h; template := Some TEMPLATE |} s))
  end.
Proof.
  unfold Model.__enter__, get. rewrite !bind_run, external_run.
  destruct (ext_LLM ext (MODEL_DIR s) "awq" "auto") as [h|e]; reflexivity.
Qed.

(** ** What [generate] does in every case *)

Lemma generate_outside (ext : externals) (uq : loc) (s : state) :
  lists s !! uq = None → Model.generate ext uq s = (Unmodelled, s).
Proof.
  intros Hq. unfold Model.generate. by rewrite bind_run, read_list_run, Hq.
Qed.

(** The library is called on the formatted prompts whatever it answers. *)
Lemma generate_calls_library (ext : externals) (uq : loc) (s : state)
    (qs : list string) (h : LLM) :
  lists s !! uq = Some qs →
  template (self s) = Some TEMPLATE →
  llm (self s) = Some h →
  ∃ calls,
    trace (Model.generate ext uq s).2 =
    trace s
    ++ [sampling_params_call;
        generate_call h (fresh (dom (lists s))) (prompt_of <$> qs)]
    ++ calls.
Proof.
  intros Hq Ht Hh. rewrite (generate_prefix ext uq s qs h Hq Ht Hh).
  cbv zeta. rewrite bind_run.
  destruct (ext_generate ext h (prompt_of <$> qs) sampling_params).1
    as [result|e]; cbn [of_reply].
  - change ((mret result : M (list RequestOutput)) ?s0) with (Normal result, s0).
    cbv iota beta.
    match goal with |- context [report result ?s0] =>
      destruct (report_cases result s0) as (o & lines & calls & Hr & _)
    end.
    rewrite Hr, emit_emit. exists calls. cbn [snd emit with_lists trace].
    reflexivity.
  - exists []. cbn [snd raise emit with_lists trace]. reflexivity.
Qed.

Lemma filter_print_calls (result : list RequestOutput) :
  List.filter is_generate_call (print_call <$> result) = [].
Proof. induction result as [|output result IH]; [reflexivity|exact IH]. Qed.

Lemma substring_prompt (q : string) : Substring q (prompt_of q).
Proof. by exists TEMPLATE_head, TEMPLATE_tail. Qed.

Lemma completions_of_normal (ext : externals) (uq : loc) (s : state)
    (qs : list string) (h : LLM) (result : list RequestOutput) :
  lists s !! uq = Some qs →
  template (self s) = Some TEMPLATE →
  llm (self s) = Some h →
  (ext_generate ext h (prompt_of <$> qs) sampling_params).1 = Returns result →
  (Model.generate ext uq s).1 = Normal VNone ↔ Forall has_completion result.
Proof.
  intros Hq Ht Hh Hr. split.
  - intros Hn.
    destruct (results_split result) as [Hall|(good & bad & rest & -> & Hg & Hb)];
      [done|].
    rewrite (generate_malformed ext uq s qs h good rest bad Hq Ht Hh Hr Hg Hb) in Hn.
    discriminate Hn.
  - intros Hall. by rewrite (generate_ok ext uq s qs h result Hq Ht Hh Hr Hall).
Qed.

(** * The specification, claim by claim *)

(** C1: [generate] hands the library a prompt list with exactly one entry
    per question, and, for the results the library returns, the loop prints
    exactly one generated text per result: it returns normally exactly when
    every result has a first completion, and then its output is one line
    per result followed by the token count. *)
Theorem generate_one_text_per_output (ext : externals) (uq : loc) (s : state)
    (qs : list string) (h : LLM) (result : list RequestOutput) :
  lists s !! uq = Some qs →
  template (self s) = Some TEMPLATE →
  llm (self s) = Some h →
  (ext_generate ext h (prompt_of <$> qs) sampling_params).1 = Returns result →
  (∃ calls,
     trace (Model.generate ext uq s).2 =
     trace s
     ++ [sampling_params_call;
         generate_call h (fresh (dom (lists s))) (prompt_of <$> qs)]
     ++ calls)
  ∧ length (prompt_of <$> qs) = length qs
  ∧ ((Model.generate ext uq s).1 = Normal VNone ↔ Forall has_completion result)
  ∧ (Forall has_completion result →
     stdout (Model.generate ext uq s).2 =
     stdout s ++ (printed_line <$> result)
     ++ [total_text (token_total result) +:+ LF]
     ∧ length (printed_line <$> result) = length result).
Proof.
  intros Hq Ht Hh Hr. split_and!.
  - by apply generate_calls_library.
  - apply length_fmap.
  - by apply (completions_of_normal ext uq s qs h).
  - intros Hall.
    rewrite (generate_ok ext uq s qs h result Hq Ht Hh Hr Hall).
    split; [|apply length_fmap].
    cbn [snd emit stdout]. reflexivity.
Qed.

Lemma generate_one_text_per_output_witness :
  length (prompt_of <$> ["Q1"; "{Q2}"]) = 2%nat
  ∧ (Model.generate echo_library 1%positive ready_state).1 = Normal VNone
  ∧ length (stdout (Model.generate echo_library 1%positive ready_state).2) = 3%nat.
Proof.
  destruct (generate_one_text_per_output echo_library 1%positive ready_state
              ["Q1"; "{Q2}"] (LLMHandle 1)
              (echo_output <$> (prompt_of <$> ["Q1"; "{Q2}"]))
              eq_refl eq_refl eq_refl eq_refl)
    as (_ & Hlen & Hiff & Hout).
  assert (Hall : Forall has_completion
                   (echo_output <$> (prompt_of <$> ["Q1"; "{Q2}"]))).
  { repeat constructor; discriminate. }
  split; [exact Hlen|]. split; [apply Hiff, Hall|].
  destruct (Hout Hall) as [-> _]. reflexivity.
Defined.

(** C2: [generate] formats every question, builds the sampling parameters
    (temperature 0.75, top_p 1, max_tokens 800, presence_penalty 1.15), calls
    the library's [generate] once with the prompts and these parameters, then
    prints prompt and text of each result in order while it adds up the
    token counts of the first completions, and prints the total. *)
Theorem generate_steps (ext : externals) (uq : loc) (s : state)
    (qs : list string) (h : LLM) (result : list RequestOutput) :
  lists s !! uq = Some qs →
  template (self s) = Some TEMPLATE →
  llm (self s) = Some h →
  (ext_generate ext h (prompt_of <$> qs) sampling_params).1 = Returns result →
  Forall has_completion result →
  let p := fresh (dom (lists s)) in
  let steps :=
    [sampling_params_call; generate_call h p (prompt_of <$> qs)]
    ++ (print_call <$> result) ++ [total_call (token_total result)] in
  Model.generate ext uq s =
  (Normal VNone,
   emit ((printed_line <$> result) ++ [total_text (token_total result) +:+ LF])
     steps
     (with_lists
        (<[p := (ext_generate ext h (prompt_of <$> qs) sampling_params).2]>
           (lists s))
        s))
  ∧ List.filter is_generate_call steps = [generate_call h p (prompt_of <$> qs)]
  ∧ args (generate_call h p (prompt_of <$> qs)) =
    [VList p (prompt_of <$> qs);
     VParams {| temperature := Float 0.75; top_p := Int 1;
                max_tokens := Int 800; presence_penalty := Float 1.15 |}]
  ∧ Forall2 (λ q pr, str_format TEMPLATE {["prompt" := q]} = Normal pr)
      qs (prompt_of <$> qs)
  ∧ token_total result =
    foldr Z.add 0
      ((λ output, from_option (λ c, Z.of_nat (length (token_ids c))) 0
                    (outputs output !! 0%nat)) <$> result).
Proof.
  intros Hq Ht Hh Hr Hall p steps. split_and!.
  - by apply generate_ok.
  - unfold steps. cbn [app List.filter is_generate_call fn sampling_params_call
                         generate_call].
    rewrite List.filter_app, filter_print_calls. reflexivity.
  - reflexivity.
  - clear. induction qs as [|q qs IH]; constructor; [apply format_prompt|exact IH].
  - clear. induction result as [|output result IH]; [reflexivity|].
    rewrite token_total_cons, IH. cbn [fmap list_fmap foldr]. f_equal.
    unfold generated_tokens. by destruct (outputs output).
Qed.

Lemma generate_steps_witness :
  Model.generate echo_library 1%positive ready_state =
  (Normal VNone,
   emit [printed_line (echo_output (prompt_of "Q1"));
         printed_line (echo_output (prompt_of "{Q2}"));
         "Generated 6 tokens" +:+ LF]
     [sampling_params_call;
      generate_call (LLMHandle 1) 2%positive [prompt_of "Q1"; prompt_of "{Q2}"];
      print_call (echo_output (prompt_of "Q1"));
      print_call (echo_output (prompt_of "{Q2}"));
      total_call 6]
     (with_lists
        (<[2%positive := [prompt_of "Q1"; prompt_of "{Q2}"]]> (lists ready_state))
        ready_state)).
Proof.
  apply (generate_steps echo_library 1%positive ready_state ["Q1"; "{Q2}"]
           (LLMHandle 1) (echo_output <$> (prompt_of <$> ["Q1"; "{Q2}"]))
           eq_refl eq_refl eq_refl eq_refl).
  repeat constructor; discriminate.
Defined.

(** C3: [generate] takes a list of strings and returns nothing: on every
    state and for every library, a value it returns is [None]; and it does
    return, with [None], when the library returns results that each have a
    first completion. *)
Theorem generate_returns_None (ext : externals) (uq : loc) (s : state) :
  (∀ v, (Model.generate ext uq s).1 = Normal v → v = VNone)
  ∧ (∀ qs h result,
       lists s !! uq = Some qs →
       template (self s) = Some TEMPLATE →
       llm (self s) = Some h →
       (ext_generate ext h (prompt_of <$> qs) sampling_params).1 = Returns result →
       Forall has_completion result →
       (Model.generate ext uq s).1 = Normal VNone).
Proof.
  split.
  - intros v Hv.
    destruct (generate_cases ext uq s) as (o & lines & calls & hp & Hg & _ & Hn).
    rewrite Hg in Hv. by apply Hn.
  - intros qs h result Hq Ht Hh Hr Hall.
    by rewrite (generate_ok ext uq s qs h result Hq Ht Hh Hr Hall).
Qed.

Lemma generate_returns_None_witness :
  (Model.generate echo_library 1%positive ready_state).1 = Normal VNone.
Proof.
  apply (proj2 (generate_returns_None echo_library 1%positive ready_state)
           ["Q1"; "{Q2}"] (LLMHandle 1)
           (echo_output <$> (prompt_of <$> ["Q1"; "{Q2}"]))
           eq_refl eq_refl eq_refl eq_refl).
  repeat constructor; discriminate.
Defined.

(** C4: no operation catches or changes an exception.  When a call to the
    platform or to a library raises [e], the operation that made the call
    raises the same [e] and makes no further call; and a result without
    completions makes [generate] raise the interpreter's [IndexError]. *)
Theorem failures_propagate (ext : externals) (s : state) (e : exn) :
  (ext_makedirs ext (MODEL_DIR s) true = Raises e →
   download_model_to_folder ext s = (Raise e, emit [] [makedirs_call s] s))
  ∧ (∀ u, ext_makedirs ext (MODEL_DIR s) true = Returns u →
     ext_snapshot_download ext (BASE_MODEL s) (MODEL_DIR s) = Raises e →
     download_model_to_folder ext s =
     (Raise e, emit [] [makedirs_call s; snapshot_download_call s] s))
  ∧ (∀ u d, ext_makedirs ext (MODEL_DIR s) true = Returns u →
     ext_snapshot_download ext (BASE_MODEL s) (MODEL_DIR s) = Returns d →
     ext_move_cache ext = Raises e →
     download_model_to_folder ext s =
     (Raise e,
      emit [] [makedirs_call s; snapshot_download_call s; move_cache_call] s))
  ∧ (ext_LLM ext (MODEL_DIR s) "awq" "auto" = Raises e →
     Model.__enter__ ext s = (Raise e, emit [] [LLM_call s] s))
  ∧ (∀ uq qs h,
       lists s !! uq = Some qs →
       template (self s) = Some TEMPLATE →
       llm (self s) = Some h →
       (ext_generate ext h (prompt_of <$> qs) sampling_params).1 = Raises e →
       (Model.generate ext uq s).1 = Raise e
       ∧ stdout (Model.generate ext uq s).2 = stdout s
       ∧ trace (Model.generate ext uq s).2 =
         trace s
         ++ [sampling_params_call;
             generate_call h (fresh (dom (lists s))) (prompt_of <$> qs)])
  ∧ (∀ uq qs h good bad rest,
       lists s !! uq = Some qs →
       template (self s) = Some TEMPLATE →
       llm (self s) = Some h →
       (ext_generate ext h (prompt_of <$> qs) sampling_params).1
       = Returns (good ++ bad :: rest) →
       Forall has_completion good →
       outputs bad = [] →
       (Model.generate ext uq s).1 = Raise (IndexError "list index out of range")
       ∧ stdout (Model.generate ext uq s).2 = stdout s ++ (printed_line <$> good)).
Proof.
  split_and!.
  - intros H1. by rewrite download_run, H1.
  - intros u H1 H2. by rewrite download_run, H1, H2.
  - intros u d H1 H2 H3. by rewrite download_run, H1, H2, H3.
  - intros H1. by rewrite enter_run, H1.
  - intros uq qs h Hq Ht Hh Hr.
    rewrite (generate_raises ext uq s qs h e Hq Ht Hh Hr).
    cbn [fst snd emit with_lists stdout trace]. by rewrite app_nil_r.
  - intros uq qs h good bad rest Hq Ht Hh Hr Hg Hb.
    by rewrite (generate_malformed ext uq s qs h good rest bad Hq Ht Hh Hr Hg Hb).
Qed.

Lemma failures_propagate_witness :
  download_model_to_folder failing_library module_state =
  (Raise (Foreign "PermissionError"),
   emit [] [makedirs_call module_state] module_state)
  ∧ Model.__enter__ failing_library module_state =
    (Raise (Foreign "OutOfMemoryError"),
     emit [] [LLM_call module_state] module_state)
  ∧ (Model.generate failing_library 1%positive ready_state).1
    = Raise (Foreign "RuntimeError")
  ∧ (Model.generate hollow_library 1%positive ready_state).1
    = Raise (IndexError "list index out of range").
Proof.
  split_and!.
  - destruct (failures_propagate failing_library module_state
                (Foreign "PermissionError")) as (H & _).
    apply H. reflexivity.
  - destruct (failures_propagate failing_library module_state
                (Foreign "OutOfMemoryError")) as (_ & _ & _ & H & _).
    apply H. reflexivity.
  - destruct (failures_propagate failing_library ready_state
                (Foreign "RuntimeError")) as (_ & _ & _ & _ & H & _).
    apply (H 1%positive ["Q1"; "{Q2}"] (LLMHandle 1) eq_refl eq_refl eq_refl eq_refl).
  - destruct (failures_propagate hollow_library ready_state
                (Foreign "unused")) as (_ & _ & _ & _ & _ & H).
    apply (H 1%positive ["Q1"; "{Q2}"] (LLMHandle 1) []
             (hollow_output (prompt_of "Q1")) [hollow_output (prompt_of "{Q2}")]
             eq_refl eq_refl eq_refl eq_refl); [constructor|reflexivity].
Defined.

(** C5: the template that [__enter__] assigns to [self.template] has exactly
    one replacement field, named [prompt]: formatting it succeeds exactly
    when the keyword argument [prompt] is given, and then puts that argument
    between the two literal parts of the template. *)
Theorem template_one_slot (ext : externals) (s : state) (h : LLM) :
  ext_LLM ext (MODEL_DIR s) "awq" "auto" = Returns h →
  template (self (Model.__enter__ ext s).2) = Some TEMPLATE
  ∧ parse_format TEMPLATE
    = Lit TEMPLATE_head (Field "prompt" (Lit TEMPLATE_tail Done))
  ∧ field_names (parse_format TEMPLATE) = ["prompt"]
  ∧ (∀ kw : gmap string string,
       str_format TEMPLATE kw =
       match kw !! "prompt" with
       | Some v => Normal (TEMPLATE_head +:+ v +:+ TEMPLATE_tail)
       | None => Raise (KeyError "prompt")
       end)
  ∧ (∀ q, str_format TEMPLATE {["prompt" := q]} = Normal (prompt_of q))
  ∧ str_format TEMPLATE ∅ = Raise (KeyError "prompt").
Proof.
  intros Hl. split_and!.
  - by rewrite enter_run, Hl.
  - apply parse_TEMPLATE.
  - by rewrite parse_TEMPLATE.
  - apply format_TEMPLATE.
  - apply format_prompt.
  - by rewrite format_TEMPLATE.
Qed.

Lemma template_one_slot_witness :
  template (self (Model.__enter__ echo_library module_state).2) = Some TEMPLATE
  ∧ field_names (parse_format TEMPLATE) = ["prompt"].
Proof.
  destruct (template_one_slot echo_library module_state (LLMHandle 1) eq_refl)
    as (H1 & _ & H3 & _).
  exact (conj H1 H3).
Defined.

(** C6: [__enter__] makes one call, the [LLM] constructor with the model
    directory and the two keyword parameters [quantization="awq"] and
    [dtype="auto"]; the handle it returns becomes [self.llm], and apart from
    assigning the template nothing else changes. *)
Theorem enter_single_constructor_call (ext : externals) (s : state) :
  trace (Model.__enter__ ext s).2 = trace s ++ [LLM_call s]
  ∧ fn (LLM_call s) = LLM_new
  ∧ args (LLM_call s) = [VStr (MODEL_DIR s)]
  ∧ size (kwargs (LLM_call s)) = 2%nat
  ∧ kwargs (LLM_call s) !! "quantization" = Some (VStr "awq")
  ∧ kwargs (LLM_call s) !! "dtype" = Some (VStr "auto")
  ∧ (∀ h, ext_LLM ext (MODEL_DIR s) "awq" "auto" = Returns h →
       Model.__enter__ ext s =
       (Normal VNone,
        emit [] [LLM_call s]
          (with_self {| llm := Some h; template := Some TEMPLATE |} s))).
Proof.
  split_and!.
  - rewrite enter_run.
    by destruct (ext_LLM ext (MODEL_DIR s) "awq" "auto").
  - reflexivity.
  - reflexivity.
  - vm_compute. reflexivity.
  - vm_compute. reflexivity.
  - vm_compute. reflexivity.
  - intros h Hl. by rewrite enter_run, Hl.
Qed.

Lemma enter_single_constructor_call_witness :
  Model.__enter__ echo_library module_state =
  (Normal VNone,
   emit [] [LLM_call module_state]
     (with_self {| llm := Some (LLMHandle 1); template := Some TEMPLATE |}
        module_state)).
Proof.
  apply (enter_single_constructor_call echo_library module_state).
  reflexivity.
Defined.

(** C7, as stated: the only call of [download_model_to_folder] would be
    [snapshot_download].  On the platform where every call returns, the
    function makes three calls. *)
Lemma download_not_single_call :
  trace (download_model_to_folder echo_library module_state).2
  ≠ trace module_state ++ [snapshot_download_call module_state].
Proof.
  rewrite download_run. cbn [echo_library ext_makedirs ext_snapshot_download
                               ext_move_cache snd emit trace module_state app].
  intros H. discriminate H.
Qed.

(** C7, amended: [download_model_to_folder] makes three calls in order:
    [os.makedirs(MODEL_DIR, exist_ok=True)], then the one call
    [snapshot_download(BASE_MODEL, local_dir=MODEL_DIR)], then
    [move_cache()]; it prints nothing and changes nothing else. *)
Theorem download_three_calls (ext : externals) (s : state) (u u' : unit)
    (d : string) :
  ext_makedirs ext (MODEL_DIR s) true = Returns u →
  ext_snapshot_download ext (BASE_MODEL s) (MODEL_DIR s) = Returns d →
  ext_move_cache ext = Returns u' →
  download_model_to_folder ext s =
  (Normal VNone,
   emit [] [makedirs_call s; snapshot_download_call s; move_cache_call] s)
  ∧ fn <$> [makedirs_call s; snapshot_download_call s; move_cache_call]
    = [os_makedirs; snapshot_download; move_cache]
  ∧ args (snapshot_download_call s) = [VStr (BASE_MODEL s)]
  ∧ kwargs (snapshot_download_call s) = {["local_dir" := VStr (MODEL_DIR s)]}
  ∧ args (makedirs_call s) = [VStr (MODEL_DIR s)]
  ∧ kwargs (makedirs_call s) = {["exist_ok" := VBool true]}.
Proof.
  intros H1 H2 H3. split_and!; try reflexivity.
  by rewrite download_run, H1, H2, H3.
Qed.

Lemma download_three_calls_witness :
  download_model_to_folder echo_library module_state =
  (Normal VNone,
   emit []
     [makedirs_call module_state; snapshot_download_call module_state;
      move_cache_call]
     module_state).
Proof.
  apply (download_three_calls echo_library module_state tt tt "/model"
           eq_refl eq_refl eq_refl).
Defined.

(** C8: the image sets exactly one environment variable,
    [HF_HUB_ENABLE_HF_TRANSFER] with value ["1"], and runs exactly one
    function while it is built, [download_model_to_folder], with a timeout
    of 60 * 20 = 1200 seconds. *)
Theorem image_env_and_build_function :
  Image.environment image = {["HF_HUB_ENABLE_HF_TRANSFER" := "1"]}
  ∧ size (Image.environment image) = 1%nat
  ∧ Image.build_functions image = [(download_model_to_folder, 1200)]
  ∧ stub_image stub = image.
Proof.
  split_and!.
  - unfold image, Image.run_function, Image.env, Image.pip_install,
      Image.from_registry.
    cbn [app Image.environment]. apply (left_id_L ∅ (∪)).
  - vm_compute. reflexivity.
  - reflexivity.
  - reflexivity.
Qed.

(** C9: formatting keeps order and content.  The list handed to the library
    has, at every index [i], the template with the [i]-th question put into
    its one field: that is what [str.format] gives for this question, and
    the question occurs in it verbatim. *)
Theorem prompts_preserve_questions (ext : externals) (uq : loc) (s : state)
    (qs : list string) (h : LLM) (i : nat) (q : string) :
  lists s !! uq = Some qs →
  template (self s) = Some TEMPLATE →
  llm (self s) = Some h →
  qs !! i = Some q →
  ∃ prompts,
    (∃ calls,
       trace (Model.generate ext uq s).2 =
       trace s
       ++ [sampling_params_call;
           generate_call h (fresh (dom (lists s))) prompts]
       ++ calls)
    ∧ length prompts = length qs
    ∧ prompts !! i = Some (TEMPLATE_head +:+ q +:+ TEMPLATE_tail)
    ∧ str_format TEMPLATE {["prompt" := q]}
      = Normal (TEMPLATE_head +:+ q +:+ TEMPLATE_tail)
    ∧ TEMPLATE = TEMPLATE_head +:+ "{prompt}" +:+ TEMPLATE_tail
    ∧ Substring q (TEMPLATE_head +:+ q +:+ TEMPLATE_tail).
Proof.
  intros Hq Ht Hh Hi. exists (prompt_of <$> qs). split_and!.
  - by apply generate_calls_library.
  - apply length_fmap.
  - by rewrite list_lookup_fmap, Hi.
  - apply format_prompt.
  - apply TEMPLATE_split.
  - apply substring_prompt.
Qed.

Lemma prompts_preserve_questions_witness :
  ∃ prompts,
    (∃ calls,
       trace (Model.generate hollow_library 1%positive ready_state).2 =
       trace ready_state
       ++ [sampling_params_call; generate_call (LLMHandle 1) 2%positive prompts]
       ++ calls)
    ∧ prompts !! 1%nat = Some (TEMPLATE_head +:+ "{Q2}" +:+ TEMPLATE_tail).
Proof.
  destruct (prompts_preserve_questions hollow_library 1%positive ready_state
              ["Q1"; "{Q2}"] (LLMHandle 1) 1%nat "{Q2}"
              eq_refl eq_refl eq_refl eq_refl)
    as (prompts & Hc & _ & Hi & _).
  exists prompts. exact (conj Hc Hi).
Defined.

(** C10: [generate] changes nothing but the output.  On every state and for
    every library, however the call ends, the module constants and the
    [Model] object with its template are as before, and so is every list
    that existed when the call was made, the argument among them; the list
    handed to the library is a new one. *)
Theorem generate_frame (ext : externals) (uq : loc) (s : state) :
  MODEL_DIR (Model.generate ext uq s).2 = MODEL_DIR s
  ∧ BASE_MODEL (Model.generate ext uq s).2 = BASE_MODEL s
  ∧ self (Model.generate ext uq s).2 = self s
  ∧ template (self (Model.generate ext uq s).2) = template (self s)
  ∧ lists (Model.generate ext uq s).2 !! uq = lists s !! uq
  ∧ (∀ l, is_Some (lists s !! l) →
       lists (Model.generate ext uq s).2 !! l = lists s !! l)
  ∧ (∀ qs h,
       lists s !! uq = Some qs →
       template (self s) = Some TEMPLATE →
       llm (self s) = Some h →
       lists s !! fresh (dom (lists s)) = None
       ∧ fresh (dom (lists s)) ≠ uq
       ∧ ∃ calls,
           trace (Model.generate ext uq s).2 =
           trace s
           ++ [sampling_params_call;
               generate_call h (fresh (dom (lists s))) (prompt_of <$> qs)]
           ++ calls).
Proof.
  destruct (generate_cases ext uq s) as (o & lines & calls & hp & Hg & Hk & _).
  assert (Hfresh : lists s !! fresh (dom (lists s)) = None).
  { apply not_elem_of_dom, is_fresh. }
  split_and!.
  - by rewrite Hg.
  - by rewrite Hg.
  - by rewrite Hg.
  - by rewrite Hg.
  - destruct (lists s !! uq) as [qs|] eqn:Hq.
    + rewrite Hg. cbn [snd emit with_lists lists]. rewrite <- Hq. apply Hk.
      by rewrite Hq.
    + by rewrite (generate_outside ext uq s Hq).
  - intros l Hl. rewrite Hg. by apply Hk.
  - intros qs h Hq Ht Hh. split_and!; [done|congruence|].
    by apply generate_calls_library.
Qed.

Lemma generate_frame_witness :
  lists (Model.generate hollow_library 1%positive ready_state).2 !! 1%positive
  = Some ["Q1"; "{Q2}"]
  ∧ lists (Model.generate hollow_library 1%positive ready_state).2 !! 2%positive
    = Some []
  ∧ self (Model.generate hollow_library 1%positive ready_state).2
    = {| llm := Some (LLMHandle 1); template := Some TEMPLATE |}.
Proof.
  destruct (generate_frame hollow_library 1%positive ready_state)
    as (_ & _ & Hs & _ & Hu & _).
  split; [exact Hu|]. split; [|exact Hs].
  vm_compute. reflexivity.
Defined.

(** ** The script on concrete libraries *)

Example main_echo_returns :
  (main echo_library module_state).1 = Normal VNone
  ∧ length (stdout (main echo_library module_state).2) = 60%nat
  ∧ last (stdout (main echo_library module_state).2)
    = Some ("Generated 177 tokens" +:+ LF).
Proof. vm_compute. done. Qed.

Example generate_hollow_raises :
  Model.generate hollow_library 1%positive ready_state =
  (Raise (IndexError "list index out of range"),
   emit [] [sampling_params_call;
            generate_call (LLMHandle 1) 2%positive
              [prompt_of "Q1"; prompt_of "{Q2}"]]
     (with_lists (<[2%positive := []]> (lists ready_state)) ready_state)).
Proof. vm_compute. reflexivity. Qed.

Example generate_before_enter :
  (Model.generate echo_library 1%positive
     (with_lists {[1%positive := ["Q1"]]} module_state)).1
  = Raise (AttributeError "template").
Proof. vm_compute. reflexivity. Qed.

(** * Further properties of the script *)

(** ** More on strings *)

Lemma length_append (a b : string) :
  String.length (a +:+ b) = (String.length a + String.length b)%nat.
Proof.
  induction a as [|c a IH]; [reflexivity|].
  change (S (String.length (a +:+ b)) = S (String.length a + String.length b)).
  by rewrite IH.
Qed.

Lemma append_inj_r (a b t : string) : a +:+ t = b +:+ t → a = b.
Proof.
  revert b. induction a as [|c a IH]; intros [|d b] H.
  - reflexivity.
  - apply (f_equal String.length) in H. rewrite !length_append in H.
    cbn [String.length] in H. lia.
  - apply (f_equal String.length) in H. rewrite !length_append in H.
    cbn [String.length] in H. lia.
  - change (String c (a +:+ t) = String d (b +:+ t)) in H.
    injection H as -> H. f_equal. by apply IH.
Qed.

Lemma prompt_of_inj (q1 q2 : string) : prompt_of q1 = prompt_of q2 → q1 = q2.
Proof.
  unfold prompt_of. intros H. apply (inj (String.append TEMPLATE_head)) in H.
  by apply append_inj_r in H.
Qed.

Lemma cons_eq_inv {A} (x y : A) (l k : list A) :
  x :: l = y :: k → x = y ∧ l = k.
Proof. intros H. by injection H. Qed.

Lemma prompts_inj (qs1 qs2 : list string) :
  prompt_of <$> qs1 = prompt_of <$> qs2 → qs1 = qs2.
Proof.
  revert qs2. induction qs1 as [|q qs1 IH]; intros [|q' qs2] H; try done.
  rewrite !fmap_cons in H. apply cons_eq_inv in H as [Hq Hrest].
  apply prompt_of_inj in Hq. apply IH in Hrest. by subst.
Qed.

(** ** Running [generate] on any formatted list *)

Lemma bind_ext {A B} (m : M A) (k1 k2 : A → M B) (s : state) :
  (∀ a s', k1 a s' = k2 a s') → (m ≫= k1) s = (m ≫= k2) s.
Proof. intros Hk. rewrite !bind_run. destruct (m s) as [[a| |] s']; by rewrite ?Hk. Qed.

Lemma generate_prefix_formatted (ext : externals) (uq : loc) (s : state)
    (qs formatted : list string) (h : LLM) :
  lists s !! uq = Some qs →
  comprehension Model.format_question qs s = (Normal formatted, s) →
  llm (self s) = Some h →
  let p := fresh (dom (lists s)) in
  let answer := ext_generate ext h formatted sampling_params in
  Model.generate ext uq s =
  (of_reply answer.1 ≫= report)
    (emit [] [sampling_params_call; generate_call h p formatted]
       (with_lists (<[p := answer.2]> (lists s)) s)).
Proof.
  intros Hq Hc Hh p answer. unfold Model.generate.
  rewrite bind_run, read_list_run, Hq.
  rewrite bind_run, Hc.
  rewrite bind_run, new_list_run. fold p.
  rewrite bind_run, new_SamplingParams_run.
  rewrite bind_run, self_llm_run.
  cbn [emit with_lists MODEL_DIR BASE_MODEL self lists stdout trace]. rewrite Hh.
  rewrite bind_run.
  rewrite (call_generate_run ext h p formatted); [|apply lookup_insert_eq].
  cbn [emit with_lists MODEL_DIR BASE_MODEL self lists stdout trace].
  rewrite insert_insert_eq, with_lists_emit, with_lists_with_lists, emit_emit.
  reflexivity.
Qed.

Lemma generate_format_error (ext : externals) (uq : loc) (s : state)
    (qs : list string) (e : exn) :
  lists s !! uq = Some qs →
  (comprehension Model.format_question qs s).1 = Raise e →
  Model.generate ext uq s = (Raise e, s).
Proof.
  intros Hq Hc. unfold Model.generate.
  rewrite bind_run, read_list_run, Hq, bind_run.
  pose proof (comprehension_state qs s) as Hs.
  destruct (comprehension Model.format_question qs s) as [o s1].
  cbn [fst snd] in Hc, Hs. by subst.
Qed.

Lemma with_lists_with_self h i s :
  with_lists h (with_self i s) = with_self i (with_lists h s).
Proof. reflexivity. Qed.

(** ** The script beyond the specification *)

(** X1: entering the [Model] object and then generating works from any
    state of the object: when the constructor returns a handle, [__enter__]
    sets up all that [generate] reads, so that the two in sequence make the
    constructor call, then the calls of [generate], and return [None]. *)
Theorem enter_then_generate (ext : externals) (uq : loc) (s : state)
    (qs : list string) (h : LLM) (result : list RequestOutput) :
  lists s !! uq = Some qs →
  ext_LLM ext (MODEL_DIR s) "awq" "auto" = Returns h →
  (ext_generate ext h (prompt_of <$> qs) sampling_params).1 = Returns result →
  Forall has_completion result →
  (Model.__enter__ ext ≫= λ _, Model.generate ext uq) s =
  (Normal VNone,
   emit ((printed_line <$> result) ++ [total_text (token_total result) +:+ LF])
     ([LLM_call s; sampling_params_call;
       generate_call h (fresh (dom (lists s))) (prompt_of <$> qs)]
      ++ (print_call <$> result) ++ [total_call (token_total result)])
     (with_self {| llm := Some h; template := Some TEMPLATE |}
        (with_lists
           (<[fresh (dom (lists s)) :=
                (ext_generate ext h (prompt_of <$> qs) sampling_params).2]>
              (lists s))
           s))).
Proof.
  intros Hq Hl Hr Hall. rewrite bind_run, enter_run, Hl.
  rewrite (generate_ok ext uq _ qs h result); try done.
  rewrite with_lists_emit, emit_emit, with_lists_with_self. reflexivity.
Qed.

Lemma enter_then_generate_witness :
  ((Model.__enter__ echo_library ≫= λ _, Model.generate echo_library 1%positive)
     unentered_state).1
  = Normal VNone.
Proof.
  assert (Hq : lists unentered_state !! 1%positive = Some ["Q1"]).
  { vm_compute. reflexivity. }
  rewrite (enter_then_generate echo_library 1%positive unentered_state ["Q1"]
             (LLMHandle 1) (echo_output <$> (prompt_of <$> ["Q1"]))
             Hq eq_refl eq_refl).
  - reflexivity.
  - repeat constructor; discriminate.
Defined.

(** X2: [main], from any state.  When the constructor raises, [main] raises
    the same exception and the library's [generate] is never called.  When
    the constructor returns and the library answers the prompts of the
    questions with results that each have a first completion, [main]
    returns [None], has printed one line per result and the total, and the
    list of questions is as it was built. *)
Theorem main_end_to_end (ext : externals) (s : state) :
  (∀ e, ext_LLM ext (MODEL_DIR s) "awq" "auto" = Raises e →
     (main ext s).1 = Raise e
     ∧ trace (main ext s).2 = trace s ++ [LLM_call s]
     ∧ stdout (main ext s).2 = stdout s)
  ∧ (∀ h result,
       ext_LLM ext (MODEL_DIR s) "awq" "auto" = Returns h →
       (ext_generate ext h (prompt_of <$> questions) sampling_params).1
       = Returns result →
       Forall has_completion result →
       (main ext s).1 = Normal VNone
       ∧ stdout (main ext s).2 =
         stdout s ++ (printed_line <$> result)
         ++ [total_text (token_total result) +:+ LF]
       ∧ List.filter is_generate_call
           (drop (length (trace s)) (trace (main ext s).2))
         = [generate_call h
              (fresh (dom (<[fresh (dom (lists s)) := questions]> (lists s))))
              (prompt_of <$> questions)]
       ∧ lists (main ext s).2 !! fresh (dom (lists s)) = Some questions).
Proof.
  unfold main. rewrite bind_run, new_list_run.
  set (p0 := fresh (dom (lists s))).
  set (s0 := with_lists (<[p0 := questions]> (lists s)) s).
  assert (Hq : lists s0 !! p0 = Some questions) by apply lookup_insert_eq.
  change (MODEL_DIR s) with (MODEL_DIR s0).
  split.
  - intros e Hl. rewrite bind_run, enter_run, Hl.
    cbn [fst snd emit trace stdout]. by rewrite app_nil_r.
  - intros h result Hl Hr Hall.
    rewrite (enter_then_generate ext p0 s0 questions h result Hq Hl Hr Hall).
    cbn [fst snd emit with_self with_lists lists stdout trace s0].
    split_and!; [done|done| |].
    + rewrite drop_app_length.
      cbn [app List.filter is_generate_call fn LLM_call sampling_params_call
             generate_call].
      rewrite List.filter_app, filter_print_calls. reflexivity.
    + rewrite lookup_insert_ne; [done|].
      intros Heq. pose proof (is_fresh (dom (<[p0 := questions]> (lists s)))) as Hf.
      rewrite Heq in Hf. apply Hf. rewrite dom_insert_L. set_solver.
Qed.

Lemma main_end_to_end_witness :
  (main failing_library module_state).1 = Raise (Foreign "OutOfMemoryError")
  ∧ (main echo_library module_state).1 = Normal VNone.
Proof.
  split.
  - apply (proj1 (main_end_to_end failing_library module_state)). reflexivity.
  - apply (proj2 (main_end_to_end echo_library module_state) (LLMHandle 1)
             (echo_output <$> (prompt_of <$> questions)) eq_refl eq_refl).
    apply Forall_fmap, Forall_true. intros p. discriminate.
Defined.

(** X3: the empty question list.  The template is read once per question,
    so with no question it is not read at all: even on an object without
    [self.template], [generate] calls the library with the empty prompt list,
    and when the library returns no result the whole output is the line
    [Generated 0 tokens]. *)
Theorem generate_empty_questions (ext : externals) (uq : loc) (s : state)
    (h : LLM) :
  lists s !! uq = Some [] →
  llm (self s) = Some h →
  (ext_generate ext h [] sampling_params).1 = Returns [] →
  Model.generate ext uq s =
  (Normal VNone,
   emit ["Generated 0 tokens" +:+ LF]
     [sampling_params_call; generate_call h (fresh (dom (lists s))) [];
      total_call 0]
     (with_lists
        (<[fresh (dom (lists s)) := (ext_generate ext h [] sampling_params).2]>
           (lists s))
        s)).
Proof.
  intros Hq Hh Hr.
  rewrite (generate_prefix_formatted ext uq s [] [] h Hq eq_refl Hh).
  cbv zeta. rewrite bind_run, Hr. cbn [of_reply].
  change ((mret [] : M (list RequestOutput)) ?s0) with (Normal (@nil RequestOutput), s0).
  cbv iota beta. rewrite (report_ok [] _ (Forall_nil_2 _)), emit_emit.
  reflexivity.
Qed.

Lemma generate_empty_questions_witness :
  (Model.generate echo_library 2%positive
     (with_self {| llm := Some (LLMHandle 1); template := None |} unentered_state)).1
  = Normal VNone.
Proof.
  assert (Hq : lists (with_self {| llm := Some (LLMHandle 1); template := None |}
                        unentered_state) !! 2%positive = Some []).
  { vm_compute. reflexivity. }
  by rewrite (generate_empty_questions echo_library 2%positive _ (LLMHandle 1)
                Hq eq_refl eq_refl).
Defined.

(** X4: [generate] on an object that was never entered.  With at least one
    question it raises [AttributeError] for [template] before anything else
    happens: no call, no output, no new list.  With no question it gets as
    far as [self.llm] and raises [AttributeError] for [llm]; the library's
    [generate] is not called. *)
Theorem generate_needs_enter (ext : externals) (uq : loc) (s : state) :
  template (self s) = None →
  llm (self s) = None →
  (∀ q qs, lists s !! uq = Some (q :: qs) →
     Model.generate ext uq s = (Raise (AttributeError "template"), s))
  ∧ (lists s !! uq = Some [] →
     Model.generate ext uq s =
     (Raise (AttributeError "llm"),
      emit [] [sampling_params_call]
        (with_lists (<[fresh (dom (lists s)) := []]> (lists s)) s))).
Proof.
  intros Ht Hh. split.
  - intros q qs Hq. apply (generate_format_error ext uq s (q :: qs)); [done|].
    cbn [comprehension]. rewrite bind_run.
    unfold Model.format_question at 1, self_template, get.
    rewrite !bind_run. cbn [fst snd]. by rewrite Ht.
  - intros Hq. unfold Model.generate.
    rewrite bind_run, read_list_run, Hq.
    rewrite bind_run. cbn [comprehension].
    change ((mret [] : M (list string)) s) with (Normal (@nil string), s).
    cbv iota beta.
    rewrite bind_run, new_list_run, bind_run, new_SamplingParams_run.
    rewrite bind_run, self_llm_run.
    cbn [emit with_lists MODEL_DIR BASE_MODEL self lists stdout trace].
    rewrite Hh. reflexivity.
Qed.

Lemma generate_needs_enter_witness :
  Model.generate echo_library 1%positive unentered_state
  = (Raise (AttributeError "template"), unentered_state)
  ∧ (Model.generate echo_library 2%positive unentered_state).1
    = Raise (AttributeError "llm").
Proof.
  destruct (generate_needs_enter echo_library 1%positive unentered_state
              eq_refl eq_refl) as [H1 _].
  destruct (generate_needs_enter echo_library 2%positive unentered_state
              eq_refl eq_refl) as [_ H2].
  split.
  - apply (H1 "Q1" []). vm_compute. reflexivity.
  - rewrite H2; [reflexivity|]. vm_compute. reflexivity.
Defined.



(** X6: formatting loses nothing.  Two questions with the same prompt are the
    same question, and two question lists for which the comprehension builds
    the same prompt list are the same list. *)
Theorem formatting_injective (s : state) (qs1 qs2 : list string) :
  template (self s) = Some TEMPLATE →
  (comprehension Model.format_question qs1 s).1
  = (comprehension Model.format_question qs2 s).1 →
  qs1 = qs2.
Proof.
  intros Ht. rewrite !(comprehension_prompts _ s Ht). cbn [fst].
  intros [= H]. by apply prompts_inj.
Qed.

Lemma formatting_injective_witness :
  ["Q1"; "{Q2}"] = ["Q1"; "{Q2}"].
Proof.
  apply (formatting_injective ready_state ["Q1"; "{Q2}"] ["Q1"; "{Q2}"] eq_refl).
  reflexivity.
Defined.

(** ** Only the first completion is read *)

Lemma print_output_first_only (output : RequestOutput) (acc : Z) (s : state) :
  Model.print_output (first_only output) acc s = Model.print_output output acc s.
Proof.
  unfold Model.print_output, first_only. cbn [outputs prompt].
  by destruct (outputs output).
Qed.

Lemma loop_first_only (result : list RequestOutput) (acc : Z) (s : state) :
  for_each Model.print_output (first_only <$> result) acc s
  = for_each Model.print_output result acc s.
Proof.
  revert acc s. induction result as [|output result IH]; intros acc s;
    [reflexivity|].
  rewrite fmap_cons. cbn [for_each]. rewrite !bind_run, print_output_first_only.
  destruct (Model.print_output output acc s) as [[acc'| |] s']; by rewrite ?IH.
Qed.

Lemma call_generate_truncating (ext : externals) (h : LLM) (p : loc)
    (sp : SamplingParams) (k : list RequestOutput → M value) (s : state) :
  (∀ result s', k (first_only <$> result) s' = k result s') →
  (call_generate (truncating ext) h p sp ≫= k) s
  = (call_generate ext h p sp ≫= k) s.
Proof.
  intros Hk. unfold call_generate. rewrite !bind_run, !read_list_run.
  destruct (lists s !! p) as [elems|]; [|reflexivity].
  unfold log, get, set_lists. rewrite !bind_run.
  cbn [truncating ext_generate fst snd MODEL_DIR BASE_MODEL self lists stdout trace].
  destruct (ext_generate ext h elems sp).1 as [result|e]; cbn [of_reply];
    [|reflexivity].
  change ((mret ?r : M (list RequestOutput)) ?s0) with (Normal r, s0).
  cbv iota beta. apply Hk.
Qed.

(** X7: completions after the first are never read.  Cutting every result
    the library returns down to its first completion changes nothing of what
    [generate] returns, prints, records or leaves behind, on any state. *)
Theorem generate_reads_first_completion_only (ext : externals) (uq : loc)
    (s : state) :
  Model.generate (truncating ext) uq s = Model.generate ext uq s.
Proof.
  unfold Model.generate.
  apply bind_ext; intros qs s1. apply bind_ext; intros formatted s2.
  apply bind_ext; intros p s3. apply bind_ext; intros sp s4.
  apply bind_ext; intros h s5.
  apply call_generate_truncating. intros result s6.
  rewrite !bind_run, loop_first_only. reflexivity.
Qed.


(** X9: what [generate] can end in, on an entered object and a list of
    questions.  The outcome is a function of the library's answer alone: the
    library's own exception when it raises, [IndexError] when some result
    has no completion, and [None] otherwise.  Whatever the questions
    contain, formatting them never fails. *)
Theorem generate_outcomes (ext : externals) (uq : loc) (s : state)
    (qs : list string) (h : LLM) :
  lists s !! uq = Some qs →
  template (self s) = Some TEMPLATE →
  llm (self s) = Some h →
  (Model.generate ext uq s).1 =
  match (ext_generate ext h (prompt_of <$> qs) sampling_params).1 with
  | Raises e => Raise e
  | Returns result =>
      if decide (Forall has_completion result) then Normal VNone
      else Raise (IndexError "list index out of range")
  end.
Proof.
  intros Hq Ht Hh.
  destruct (ext_generate ext h (prompt_of <$> qs) sampling_params).1
    as [result|e] eqn:Hr.
  - case_decide as Hall.
    + by rewrite (generate_ok ext uq s qs h result Hq Ht Hh Hr Hall).
    + destruct (results_split result) as [?|(good & bad & rest & -> & Hg & Hb)];
        [done|].
      by rewrite (generate_malformed ext uq s qs h good rest bad Hq Ht Hh Hr Hg Hb).
  - by rewrite (generate_raises ext uq s qs h e Hq Ht Hh Hr).
Qed.

Lemma generate_outcomes_witness :
  (Model.generate hollow_library 1%positive ready_state).1
  = Raise (IndexError "list index out of range")
  ∧ (Model.generate verbose_library 1%positive ready_state).1 = Normal VNone.
Proof.
  split.
  - by rewrite (generate_outcomes hollow_library 1%positive ready_state
                  ["Q1"; "{Q2}"] (LLMHandle 1) eq_refl eq_refl eq_refl).
  - by rewrite (generate_outcomes verbose_library 1%positive ready_state
                  ["Q1"; "{Q2}"] (LLMHandle 1) eq_refl eq_refl eq_refl).
Defined.

(** ** The calls of [generate], in every case *)

Lemma report_prints (result : list RequestOutput) (s : state) :
  ∃ o lines calls,
    report result s = (o, emit lines calls s)
    ∧ Forall (λ c, fn c = builtin_print) calls.
Proof.
  assert (Hp : ∀ l, Forall (λ c, fn c = builtin_print) (print_call <$> l)).
  { intros l. apply Forall_fmap, Forall_true. by intros output. }
  destruct (results_split result) as [Hall|(good & bad & rest & -> & Hg & Hb)].
  - eexists _, _, _. split; [apply (report_ok _ _ Hall)|].
    apply Forall_app. split; [apply Hp|by repeat constructor].
  - eexists _, _, _. split; [apply (report_stops _ _ _ _ Hg Hb)|apply Hp].
Qed.

Lemma prints_are_steps (calls : list call) :
  Forall (λ c, fn c = builtin_print) calls →
  Forall (λ c, is_generate_step c = true) calls
  ∧ List.filter is_generate_call calls = [].
Proof.
  induction 1 as [|c calls Hc _ [IH1 IH2]]; [by split|].
  split.
  - constructor; [|done]. unfold is_generate_step. by rewrite Hc.
  - cbn [List.filter]. unfold is_generate_call at 1. by rewrite Hc.
Qed.

(** X10: the calls [generate] makes, on every state and for every library,
    however the call ends.  It only builds sampling parameters, calls the
    library's [generate] and prints: it never loads a model or downloads
    anything; and it calls the library's [generate] at most once, so a
    failed generation is never tried again. *)
Theorem generate_call_discipline (ext : externals) (uq : loc) (s : state) :
  ∃ calls,
    trace (Model.generate ext uq s).2 = trace s ++ calls
    ∧ Forall (λ c, is_generate_step c = true) calls
    ∧ (length (List.filter is_generate_call calls) ≤ 1)%nat.
Proof.
  unfold Model.generate. rewrite bind_run, read_list_run.
  destruct (lists s !! uq) as [qs|] eqn:Hq; cycle 1.
  { exists []. cbn [snd]. rewrite app_nil_r. split_and!; [done|constructor|cbn; lia]. }
  rewrite bind_run. pose proof (comprehension_state qs s) as Hc.
  destruct (comprehension Model.format_question qs s) as [[formatted|e|] s1];
    cbn [snd] in Hc; subst s1.
  2,3: exists []; cbn [snd]; rewrite app_nil_r;
       split_and!; [done|constructor|cbn; lia].
  rewrite bind_run, new_list_run. set (p := fresh (dom (lists s))).
  rewrite bind_run, new_SamplingParams_run.
  rewrite bind_run, self_llm_run.
  cbn [emit with_lists MODEL_DIR BASE_MODEL self lists stdout trace].
  destruct (llm (self s)) as [h|].
  2:{ exists [sampling_params_call]. cbn [snd trace].
      split_and!; [done|by repeat constructor|cbn; lia]. }
  rewrite bind_run.
  rewrite (call_generate_run ext h p formatted); [|apply lookup_insert_eq].
  cbn [emit with_lists MODEL_DIR BASE_MODEL self lists stdout trace].
  rewrite insert_insert_eq, with_lists_emit, with_lists_with_lists, emit_emit.
  destruct (ext_generate ext h formatted sampling_params) as [[result|e] elems'];
    cbn [fst snd of_reply].
  2:{ exists [sampling_params_call; generate_call h p formatted].
      cbn [snd raise emit with_lists trace app].
      split_and!; [done|by repeat constructor|cbn; lia]. }
  change ((mret result : M (list RequestOutput)) ?s0) with (Normal result, s0).
  cbv iota beta.
  match goal with |- context [emit ?l ?c ?s0] =>
    destruct (report_prints result (emit l c s0)) as (o & lines & calls & Hr & Hp)
  end.
  unfold report in Hr. rewrite Hr, emit_emit.
  destruct (prints_are_steps calls Hp) as [Hsteps Hnone].
  exists ([sampling_params_call; generate_call h p formatted] ++ calls).
  cbn [snd emit with_lists trace]. split_and!; [done| |].
  - apply Forall_app. split; [by repeat constructor|done].
  - cbn [app List.filter is_generate_call fn sampling_params_call generate_call].
    rewrite Hnone. cbn. lia.
Qed.

(** X11: the output shows the questions.  When the library returns one
    result per prompt, each with the prompt it was given and a first
    completion, every question occurs verbatim in the line printed for it,
    in the order of the questions. *)
Theorem printed_lines_show_questions (ext : externals) (uq : loc) (s : state)
    (qs : list string) (h : LLM) (result : list RequestOutput) :
  lists s !! uq = Some qs →
  template (self s) = Some TEMPLATE →
  llm (self s) = Some h →
  (ext_generate ext h (prompt_of <$> qs) sampling_params).1 = Returns result →
  Forall2 (λ q output, prompt output = prompt_of q ∧ has_completion output)
    qs result →
  ∃ lines,
    stdout (Model.generate ext uq s).2 =
    stdout s ++ lines ++ [total_text (token_total result) +:+ LF]
    ∧ Forall2 Substring qs lines.
Proof.
  intros Hq Ht Hh Hr Hres.
  assert (Hall : Forall has_completion result).
  { clear -Hres. induction Hres as [|q o qs result [_ Ho] _ IH]; by constructor. }
  exists (printed_line <$> result). split.
  - by rewrite (generate_ok ext uq s qs h result Hq Ht Hh Hr Hall).
  - clear -Hres. induction Hres as [|q o qs result [Hp _] _ IH]; [constructor|].
    rewrite fmap_cons. constructor; [|exact IH].
    unfold printed_line. rewrite Hp. unfold prompt_of.
    exists TEMPLATE_head,
      (TEMPLATE_tail +:+ generated_text o +:+ LF +:+ LF +:+ LF).
    by rewrite !append_assoc.
Qed.

Lemma printed_lines_show_questions_witness :
  ∃ lines,
    stdout (Model.generate echo_library 1%positive ready_state).2 =
    stdout ready_state ++ lines ++ ["Generated 6 tokens" +:+ LF]
    ∧ Forall2 Substring ["Q1"; "{Q2}"] lines.
Proof.
  apply (printed_lines_show_questions echo_library 1%positive ready_state
           ["Q1"; "{Q2}"] (LLMHandle 1)
           (echo_output <$> (prompt_of <$> ["Q1"; "{Q2}"]))
           eq_refl eq_refl eq_refl eq_refl).
  repeat constructor; discriminate.
Defined.
